(** * Fiona collections: a shallow embedding of [fiona/collection.py]

    The module wraps a native session (OGR) behind a file-like handle.  The
    embedding keeps the handle as a record, runs every method in a small
    state-and-exception monad, and records each call into the native layer
    in a trace, so that statements about "what was called on the native side"
    can be made and proved. *)

From Stdlib Require Import ZArith List String Ascii Bool Lia.
From Stdlib.Strings Require Import Byte.
Import ListNotations.
Set Warnings "-register-all".
Open Scope string_scope.
Open Scope Z_scope.

(** ** Python strings *)

Module PyStr.

(** [c in chars], for a character and the set of characters of a string. *)
Fixpoint char_in (c : ascii) (chars : string) : bool :=
  match chars with
  | EmptyString => false
  | String d rest => Ascii.eqb c d || char_in c rest
  end.

(** [s.lstrip(chars)]: drops every leading character that belongs to the
    set [chars]; the argument is a set of characters, not a prefix. *)
Fixpoint lstrip (chars s : string) : string :=
  match s with
  | EmptyString => EmptyString
  | String c rest => if char_in c chars then lstrip chars rest else s
  end.

(** [s.startswith(p)], returning what follows the prefix. *)
Fixpoint strip_prefix (p s : string) : option string :=
  match p with
  | EmptyString => Some s
  | String a p' =>
      match s with
      | EmptyString => None
      | String b s' => if Ascii.eqb a b then strip_prefix p' s' else None
      end
  end.

Definition startswith (s p : string) : bool :=
  match strip_prefix p s with Some _ => true | None => false end.

(** [sub in s] for two strings: substring test. *)
Fixpoint contains (sub s : string) : bool :=
  startswith s sub ||
  match s with
  | EmptyString => false
  | String _ rest => contains sub rest
  end.

Definition lower_char (c : ascii) : ascii :=
  let n := nat_of_ascii c in
  if (Nat.leb 65 n && Nat.leb n 90)%bool then ascii_of_nat (n + 32) else c.

(** [s.lower()] on the ASCII range. *)
Fixpoint lower (s : string) : string :=
  match s with
  | EmptyString => EmptyString
  | String c rest => String (lower_char c) (lower rest)
  end.

(** The literal prefix [p] removed once when present: the reading of
    "disregarding a prefix" that [lstrip] is compared with. *)
Definition remove_prefix (p s : string) : string :=
  match strip_prefix p s with Some r => r | None => s end.

Definition head_outside (chars s : string) : bool :=
  match s with
  | EmptyString => true
  | String c _ => negb (char_in c chars)
  end.

End PyStr.

(** ** Python values seen by the wrapper

    The wrapper is dynamically typed: constructor arguments are tested with
    [isinstance] and for truthiness.  Numbers that the wrapper never inspects
    (coordinates of a bounding box) are represented by integers. *)

Inductive value : Type :=
| VNone
| VBool (b : bool)
| VInt (z : Z)
| VStr (s : string)
| VBytes (b : list byte)
| VTuple (items : list value)
| VDict (items : list (string * value)).

Definition truthy (v : value) : bool :=
  match v with
  | VNone => false
  | VBool b => b
  | VInt z => negb (z =? 0)
  | VStr s => negb (String.eqb s "")
  | VBytes b => match b with [] => false | _ => true end
  | VTuple l => match l with [] => false | _ => true end
  | VDict l => match l with [] => false | _ => true end
  end.

Definition is_str (v : value) : bool :=
  match v with VStr _ => true | _ => false end.

(** [isinstance(v, int)]; [bool] is a subclass of [int]. *)
Definition is_int (v : value) : bool :=
  match v with VInt _ | VBool _ => true | _ => false end.

Definition is_dict (v : value) : bool :=
  match v with VDict _ => true | _ => false end.

Definition is_bytes (v : value) : bool :=
  match v with VBytes _ => true | _ => false end.

Definition is_none (v : value) : bool :=
  match v with VNone => true | _ => false end.

(** [v == s] for a string literal [s]. *)
Definition eq_str (v : value) (s : string) : bool :=
  match v with VStr t => String.eqb t s | _ => false end.

(** [v == 0]. *)
Definition eq_zero (v : value) : bool :=
  match v with
  | VInt z => z =? 0
  | VBool b => negb b
  | _ => false
  end.

(** [a or b] on values. *)
Definition py_or (a b : value) : value := if truthy a then a else b.

(** [d.get(k)] on keyword arguments. *)
Fixpoint kw_get (k : string) (kw : list (string * value)) : value :=
  match kw with
  | [] => VNone
  | (k', v) :: rest => if String.eqb k k' then v else kw_get k rest
  end.

Fixpoint kw_mem (k : string) (kw : list (string * value)) : bool :=
  match kw with
  | [] => false
  | (k', _) :: rest => String.eqb k k' || kw_mem k rest
  end.

(** [kwargs.update(k=v)]: replaces the entry in place or appends it. *)
Fixpoint kw_update (k : string) (v : value) (kw : list (string * value))
  : list (string * value) :=
  match kw with
  | [] => [(k, v)]
  | (k', v') :: rest =>
      if String.eqb k k' then (k, v) :: rest else (k', v') :: kw_update k v rest
  end.

(** ** Exceptions *)

Inductive exc_class : Type :=
| TypeError | ValueError | IOError | KeyError | AttributeError
| DriverError | SchemaError | CRSError.

(** An exception carries its class, the format string of its message and the
    value the message is formatted with. *)
Record exn : Type := Exn {
  exc_type : exc_class;
  exc_msg : string;
  exc_arg : value
}.

(** What [except IOError] catches.  The error classes of [fiona.errors] used
    by this module derive from [ValueError]. *)
Definition is_IOError (e : exn) : bool :=
  match exc_type e with IOError => true | _ => false end.

Definition result (A : Type) : Type := (exn + A)%type.

(** ** The collection handle *)

(** [Session()] serves mode 'r', [WritingSession()] modes 'a' and 'w'. *)
Inductive SessionKind : Type := Session | WritingSession.

(** The three iterator classes of the native layer. *)
Inductive IteratorKind : Type := Iterator | ItemsIterator | KeysIterator.

(** An iterator object, as built by [filter], [items] and [keys]. *)
Record IteratorObj : Type := {
  it_kind : IteratorKind;
  it_start : value;
  it_stop : value;
  it_step : value;
  it_bbox : value;
  it_mask : value
}.

(** The attributes of a [Collection]; [bytesbuf] and [virtual_file] are the
    two attributes that [BytesCollection] adds.  [session], [iterator] and
    [env] hold an object or [None]; the objects of those three classes define
    neither [__bool__] nor [__len__] and are therefore truthy. *)
Record Collection : Type := {
  session : option SessionKind;
  iterator : option IteratorObj;
  _len : Z;
  _bounds : value;
  _driver : value;
  _schema : value;
  _crs : value;
  _crs_wkt : value;
  env : option unit;
  enabled_drivers : value;
  path : string;
  name : value;
  mode : string;
  encoding : value;
  bytesbuf : value;
  virtual_file : value
}.

(** Attribute assignment, one setter per attribute that the module assigns. *)
Definition set_session (v : option SessionKind) (c : Collection) :=
  {| session := v; iterator := iterator c; _len := _len c;
     _bounds := _bounds c; _driver := _driver c; _schema := _schema c;
     _crs := _crs c; _crs_wkt := _crs_wkt c; env := env c;
     enabled_drivers := enabled_drivers c; path := path c; name := name c;
     mode := mode c; encoding := encoding c; bytesbuf := bytesbuf c;
     virtual_file := virtual_file c |}.

Definition set_iterator (v : option IteratorObj) (c : Collection) :=
  {| session := session c; iterator := v; _len := _len c;
     _bounds := _bounds c; _driver := _driver c; _schema := _schema c;
     _crs := _crs c; _crs_wkt := _crs_wkt c; env := env c;
     enabled_drivers := enabled_drivers c; path := path c; name := name c;
     mode := mode c; encoding := encoding c; bytesbuf := bytesbuf c;
     virtual_file := virtual_file c |}.

Definition set__len (v : Z) (c : Collection) :=
  {| session := session c; iterator := iterator c; _len := v;
     _bounds := _bounds c; _driver := _driver c; _schema := _schema c;
     _crs := _crs c; _crs_wkt := _crs_wkt c; env := env c;
     enabled_drivers := enabled_drivers c; path := path c; name := name c;
     mode := mode c; encoding := encoding c; bytesbuf := bytesbuf c;
     virtual_file := virtual_file c |}.

Definition set__bounds (v : value) (c : Collection) :=
  {| session := session c; iterator := iterator c; _len := _len c;
     _bounds := v; _driver := _driver c; _schema := _schema c;
     _crs := _crs c; _crs_wkt := _crs_wkt c; env := env c;
     enabled_drivers := enabled_drivers c; path := path c; name := name c;
     mode := mode c; encoding := encoding c; bytesbuf := bytesbuf c;
     virtual_file := virtual_file c |}.

Definition set__driver (v : value) (c : Collection) :=
  {| session := session c; iterator := iterator c; _len := _len c;
     _bounds := _bounds c; _driver := v; _schema := _schema c;
     _crs := _crs c; _crs_wkt := _crs_wkt c; env := env c;
     enabled_drivers := enabled_drivers c; path := path c; name := name c;
     mode := mode c; encoding := encoding c; bytesbuf := bytesbuf c;
     virtual_file := virtual_file c |}.

Definition set__schema (v : value) (c : Collection) :=
  {| session := session c; iterator := iterator c; _len := _len c;
     _bounds := _bounds c; _driver := _driver c; _schema := v;
     _crs := _crs c; _crs_wkt := _crs_wkt c; env := env c;
     enabled_drivers := enabled_drivers c; path := path c; name := name c;
     mode := mode c; encoding := encoding c; bytesbuf := bytesbuf c;
     virtual_file := virtual_file c |}.

Definition set__crs (v : value) (c : Collection) :=
  {| session := session c; iterator := iterator c; _len := _len c;
     _bounds := _bounds c; _driver := _driver c; _schema := _schema c;
     _crs := v; _crs_wkt := _crs_wkt c; env := env c;
     enabled_drivers := enabled_drivers c; path := path c; name := name c;
     mode := mode c; encoding := encoding c; bytesbuf := bytesbuf c;
     virtual_file := virtual_file c |}.

Definition set__crs_wkt (v : value) (c : Collection) :=
  {| session := session c; iterator := iterator c; _len := _len c;
     _bounds := _bounds c; _driver := _driver c; _schema := _schema c;
     _crs := _crs c; _crs_wkt := v; env := env c;
     enabled_drivers := enabled_drivers c; path := path c; name := name c;
     mode := mode c; encoding := encoding c; bytesbuf := bytesbuf c;
     virtual_file := virtual_file c |}.

Definition set_env (v : option unit) (c : Collection) :=
  {| session := session c; iterator := iterator c; _len := _len c;
     _bounds := _bounds c; _driver := _driver c; _schema := _schema c;
     _crs := _crs c; _crs_wkt := _crs_wkt c; env := v;
     enabled_drivers := enabled_drivers c; path := path c; name := name c;
     mode := mode c; encoding := encoding c; bytesbuf := bytesbuf c;
     virtual_file := virtual_file c |}.

Definition set_enabled_drivers (v : value) (c : Collection) :=
  {| session := session c; iterator := iterator c; _len := _len c;
     _bounds := _bounds c; _driver := _driver c; _schema := _schema c;
     _crs := _crs c; _crs_wkt := _crs_wkt c; env := env c;
     enabled_drivers := v; path := path c; name := name c;
     mode := mode c; encoding := encoding c; bytesbuf := bytesbuf c;
     virtual_file := virtual_file c |}.

Definition set_path (v : string) (c : Collection) :=
  {| session := session c; iterator := iterator c; _len := _len c;
     _bounds := _bounds c; _driver := _driver c; _schema := _schema c;
     _crs := _crs c; _crs_wkt := _crs_wkt c; env := env c;
     enabled_drivers := enabled_drivers c; path := v; name := name c;
     mode := mode c; encoding := encoding c; bytesbuf := bytesbuf c;
     virtual_file := virtual_file c |}.

Definition set_name (v : value) (c : Collection) :=
  {| session := session c; iterator := iterator c; _len := _len c;
     _bounds := _bounds c; _driver := _driver c; _schema := _schema c;
     _crs := _crs c; _crs_wkt := _crs_wkt c; env := env c;
     enabled_drivers := enabled_drivers c; path := path c; name := v;
     mode := mode c; encoding := encoding c; bytesbuf := bytesbuf c;
     virtual_file := virtual_file c |}.

Definition set_mode (v : string) (c : Collection) :=
  {| session := session c; iterator := iterator c; _len := _len c;
     _bounds := _bounds c; _driver := _driver c; _schema := _schema c;
     _crs := _crs c; _crs_wkt := _crs_wkt c; env := env c;
     enabled_drivers := enabled_drivers c; path := path c; name := name c;
     mode := v; encoding := encoding c; bytesbuf := bytesbuf c;
     virtual_file := virtual_file c |}.

Definition set_encoding (v : value) (c : Collection) :=
  {| session := session c; iterator := iterator c; _len := _len c;
     _bounds := _bounds c; _driver := _driver c; _schema := _schema c;
     _crs := _crs c; _crs_wkt := _crs_wkt c; env := env c;
     enabled_drivers := enabled_drivers c; path := path c; name := name c;
     mode := mode c; encoding := v; bytesbuf := bytesbuf c;
     virtual_file := virtual_file c |}.

Definition set_bytesbuf (v : value) (c : Collection) :=
  {| session := session c; iterator := iterator c; _len := _len c;
     _bounds := _bounds c; _driver := _driver c; _schema := _schema c;
     _crs := _crs c; _crs_wkt := _crs_wkt c; env := env c;
     enabled_drivers := enabled_drivers c; path := path c; name := name c;
     mode := mode c; encoding := encoding c; bytesbuf := v;
     virtual_file := virtual_file c |}.

Definition set_virtual_file (v : value) (c : Collection) :=
  {| session := session c; iterator := iterator c; _len := _len c;
     _bounds := _bounds c; _driver := _driver c; _schema := _schema c;
     _crs := _crs c; _crs_wkt := _crs_wkt c; env := env c;
     enabled_drivers := enabled_drivers c; path := path c; name := name c;
     mode := mode c; encoding := encoding c; bytesbuf := bytesbuf c;
     virtual_file := v |}.

(** An object on which [__init__] has not run yet.  Python has no attribute
    there at all; the placeholders are overwritten by [__init__] before any
    method reads them. *)
Definition new_object : Collection :=
  {| session := None; iterator := None; _len := 0; _bounds := VNone;
     _driver := VNone; _schema := VNone; _crs := VNone; _crs_wkt := VNone;
     env := None; enabled_drivers := VNone; path := ""; name := VNone;
     mode := ""; encoding := VNone; bytesbuf := VNone;
     virtual_file := VNone |}.

(** The [closed] property: [self.session is None]. *)
Definition closed (c : Collection) : bool :=
  match session c with None => true | Some _ => false end.

(** ** The native layer

    Everything imported from [fiona.ogrext], [fiona._drivers] and
    [fiona.drvsupport] is outside this module.  A call into it is recorded
    as an event; its answer is given by an oracle that sees the whole history
    of earlier calls, so any deterministic native layer is an instance. *)

Inductive Call : Type :=
| call_env_enter
| call_env_exit
| call_start (k : SessionKind) (c : Collection) (kwargs : list (string * value))
| call_stop
| call_get_driver
| call_get_schema
| call_get_crs
| call_get_crs_wkt
| call_get_fileencoding
| call_get_length
| call_get_extent
| call_has_feature (fid : value)
| call_getitem (item : value)
| call_writerecs (records : list value) (c : Collection)
| call_sync (c : Collection)
| call_new_iterator (it : IteratorObj) (c : Collection)
| call_buffer_to_virtual_file (buf : list byte) (ext : string)
| call_remove_virtual_file (vf : value).

Record Event : Type := {
  ev_call : Call;
  ev_raised : option exn
}.

(** The trace lists the events newest first. *)
Definition Trace : Type := list Event.

Record Native : Type := {
  env_enter : Trace -> result unit;
  env_exit : Trace -> result unit;
  start : Trace -> SessionKind -> Collection -> list (string * value) ->
          result unit;
  stop : Trace -> result unit;
  get_driver : Trace -> result string;
  get_schema : Trace -> result value;
  get_crs : Trace -> result value;
  get_crs_wkt : Trace -> result string;
  get_fileencoding : Trace -> result string;
  get_length : Trace -> result Z;
  get_extent : Trace -> result value;
  has_feature : Trace -> value -> result bool;
  session_getitem : Trace -> value -> result value;
  writerecs : Trace -> list value -> Collection -> result unit;
  sync : Trace -> Collection -> result unit;
  new_iterator : Trace -> IteratorObj -> Collection -> result unit;
  buffer_to_virtual_file : Trace -> list byte -> string -> result string;
  remove_virtual_file : Trace -> value -> result unit
}.

(** Module-level names that the constructor reads: the driver support table
    of [fiona.drvsupport], the GDAL version queries, the helpers of
    [fiona.vfs] and [os.path.basename(os.path.splitext(p)[0])]. *)
Record Setup : Type := {
  supported_drivers : list (string * string);
  get_gdal_version_num : Z;
  calc_gdal_version_num : Z -> Z -> Z -> Z;
  get_gdal_release_name : string;
  valid_vsi : string -> bool;
  vsi_path : string -> value -> value -> string;
  path_stem : string -> string
}.

(** ** State and exceptions *)

Record State : Type := {
  self : Collection;
  trace : Trace
}.

(** A method runs on a state and leaves a state behind, whether it returns
    or raises: attribute assignments made before a [raise] stay. *)
Definition M (A : Type) : Type := State -> State * result A.

Definition ret {A} (a : A) : M A := fun st => (st, inr a).

Definition raise {A} (t : exc_class) (msg : string) (arg : value) : M A :=
  fun st => (st, inl (Exn t msg arg)).

Definition reraise {A} (e : exn) : M A := fun st => (st, inl e).

Definition bind {A B} (m : M A) (f : A -> M B) : M B :=
  fun st =>
    match m st with
    | (st', inr a) => f a st'
    | (st', inl e) => (st', inl e)
    end.

Declare Scope py_scope.
Delimit Scope py_scope with py.
Notation "x <- m ;; k" := (bind m (fun x => k))
  (at level 61, m at next level, right associativity) : py_scope.
Notation "m ;; k" := (bind m (fun _ => k))
  (at level 61, right associativity) : py_scope.
Open Scope py_scope.

Definition get_self : M Collection := fun st => (st, inr (self st)).

Definition assign (f : Collection -> Collection) : M unit :=
  fun st => ({| self := f (self st); trace := trace st |}, inr tt).

(** [if cond: body] with no [else]. *)
Definition when (cond : bool) (body : M unit) : M unit :=
  if cond then body else ret tt.

(** Lifts a pure computation that may raise. *)
Definition lift {A} (r : result A) : M A := fun st => (st, r).

(** A call into the native layer: asks the oracle at the current history and
    appends the event with its outcome. *)
Definition invoke {A} (c : Call) (oracle : Trace -> result A) : M A :=
  fun st =>
    let r := oracle (trace st) in
    ({| self := self st;
        trace := {| ev_call := c;
                    ev_raised := match r with inl e => Some e | inr _ => None end |}
                 :: trace st |}, r).

(** [try: body / except IOError: handler; raise]. *)
Definition try_except_IOError (body handler : M unit) : M unit :=
  fun st =>
    match body st with
    | (st', inr a) => (st', inr a)
    | (st', inl e) =>
        if is_IOError e
        then match handler st' with
             | (st'', inr _) => (st'', inl e)
             | (st'', inl e') => (st'', inl e')
             end
        else (st', inl e)
    end.

(** ** Dynamic operations on values *)

Fixpoint lookup (k : string) (d : list (string * value)) : option value :=
  match d with
  | [] => None
  | (k', v) :: rest => if String.eqb k k' then Some v else lookup k rest
  end.

(** [v[k]] for a string key. *)
Definition py_getitem (v : value) (k : string) : result value :=
  match v with
  | VDict d =>
      match lookup k d with
      | Some x => inr x
      | None => inl (Exn KeyError "%r" (VStr k))
      end
  | VStr _ | VBytes _ | VTuple _ =>
      inl (Exn TypeError "indices must be integers" (VStr k))
  | _ => inl (Exn TypeError "object is not subscriptable" v)
  end.

(** [needle in v] for a string [needle]. *)
Definition py_in (needle : string) (v : value) : result bool :=
  match v with
  | VStr s => inr (PyStr.contains needle s)
  | VDict d => inr (kw_mem needle d)
  | VTuple l => inr (existsb (fun x => eq_str x needle) l)
  | VBytes _ => inl (Exn TypeError "a bytes-like object is required" v)
  | _ => inl (Exn TypeError "argument is not iterable" v)
  end.

(** [v.lower()]. *)
Definition py_lower (v : value) : result string :=
  match v with
  | VStr s => inr (PyStr.lower s)
  | _ => inl (Exn AttributeError "object has no attribute 'lower'" v)
  end.

(** [v.lstrip(chars)]. *)
Definition py_lstrip (v : value) (chars : string) : result string :=
  match v with
  | VStr s => inr (PyStr.lstrip chars s)
  | _ => inl (Exn AttributeError "object has no attribute 'lstrip'" v)
  end.

(** [v.keys()]. *)
Definition py_keys (v : value) : result (list string) :=
  match v with
  | VDict d => inr (map fst d)
  | _ => inl (Exn AttributeError "object has no attribute 'keys'" v)
  end.

(** [set(a) == set(b)] on lists of keys. *)
Definition set_eqb (a b : list string) : bool :=
  forallb (fun x => existsb (String.eqb x) b) a &&
  forallb (fun x => existsb (String.eqb x) a) b.

(** The slice built from the positional arguments: its start, stop and
    step. *)
Definition slice (args : list value) : result (value * value * value) :=
  match args with
  | [] => inl (Exn TypeError "slice expected at least 1 argument, got 0" VNone)
  | [a] => inr (VNone, a, VNone)
  | [a; b] => inr (a, b, VNone)
  | [a; b; c] => inr (a, b, c)
  | _ => inl (Exn TypeError "slice expected at most 3 arguments"
                (VInt (Z.of_nat (List.length args))))
  end.

(** [a and b or c] with a comparison for [a] and integers for [b] and [c]:
    [b] when [a] holds and [b] is truthy (non-zero), [c] otherwise. *)
Definition and_or (a : bool) (b c : Z) : Z :=
  if a then (if b =? 0 then c else b) else c.

(** ** Methods of [Collection] *)

(** The parameters of [Collection.__init__]; [arg_kwargs] is [**kwargs]. *)
Record InitArgs : Type := {
  arg_path : value;
  arg_mode : value;
  arg_driver : value;
  arg_schema : value;
  arg_crs : value;
  arg_encoding : value;
  arg_layer : value;
  arg_vsi : value;
  arg_archive : value;
  arg_enabled_drivers : value;
  arg_crs_wkt : value;
  arg_kwargs : list (string * value)
}.

Definition as_str (v : value) : string :=
  match v with VStr s => s | _ => "" end.

(** [mode in ('a', 'w')]. *)
Definition mode_in_aw (m : string) : bool :=
  String.eqb m "a" || String.eqb m "w".

(** [mode in ("a", "r")]. *)
Definition mode_in_ar (m : string) : bool :=
  String.eqb m "a" || String.eqb m "r".

Definition is_some {A} (o : option A) : bool :=
  match o with Some _ => true | None => false end.

(** [supported_drivers[driver]], when the driver is in the table. *)
Fixpoint table_get (k : string) (t : list (string * string)) : option string :=
  match t with
  | [] => None
  | (k', v) :: rest => if String.eqb k k' then Some v else table_get k rest
  end.

Module Col.
Section Methods.

Variable N : Native.
Variable S : Setup.

(** [self.session.<attr>] when [self.session] is [None]. *)
Definition none_has_no {A} (attr : string) : M A :=
  raise AttributeError "'NoneType' object has no attribute %r" (VStr attr).

(** Runs [k] when the session attribute holds an object. *)
Definition on_session {A} (attr : string) (k : M A) : M A :=
  c <- get_self ;;
  match session c with
  | Some _ => k
  | None => none_has_no attr
  end.

Definition guard_driver_mode : M unit :=
  driver <- on_session "get_driver" (invoke call_get_driver (get_driver N)) ;;
  c <- get_self ;;
  match table_get driver (supported_drivers S) with
  | None => raise DriverError "unsupported driver: %r" (VStr driver)
  | Some modes =>
      when (negb (PyStr.contains (mode c) modes))
        (raise DriverError "unsupported mode: %r" (VStr (mode c)))
  end.

(** The argument checks that open [__init__]. *)
Definition check_arguments (a : InitArgs) : M unit :=
  when (negb (is_str (arg_path a)))
    (raise TypeError "invalid path: %r" (arg_path a)) ;;
  when (negb (is_str (arg_mode a)) ||
        negb (eq_str (arg_mode a) "r" || eq_str (arg_mode a) "w" ||
              eq_str (arg_mode a) "a"))
    (raise TypeError "invalid mode: %r" (arg_mode a)) ;;
  when (truthy (arg_driver a) && negb (is_str (arg_driver a)))
    (raise TypeError "invalid driver: %r" (arg_driver a)) ;;
  (* [hasattr(schema, 'get')]: of the values modelled, mappings have it *)
  when (truthy (arg_schema a) && negb (is_dict (arg_schema a)))
    (raise TypeError "invalid schema: %r" (arg_schema a)) ;;
  when (truthy (arg_crs a) &&
        negb (is_dict (arg_crs a) || is_str (arg_crs a)))
    (raise TypeError "invalid crs: %r" (arg_crs a)) ;;
  when (truthy (arg_crs_wkt a) && negb (is_str (arg_crs_wkt a)))
    (raise TypeError "invalid crs_wkt: %r" (arg_crs_wkt a)) ;;
  when (truthy (arg_encoding a) && negb (is_str (arg_encoding a)))
    (raise TypeError "invalid encoding: %r" (arg_encoding a)) ;;
  when (truthy (arg_layer a) &&
        negb (is_str (arg_layer a) || is_int (arg_layer a)))
    (raise TypeError "invalid name: %r" (arg_layer a)) ;;
  when (truthy (arg_vsi a) &&
        (negb (is_str (arg_vsi a)) ||
         negb (valid_vsi S (as_str (arg_vsi a)))))
    (raise TypeError "invalid vsi: %r" (arg_vsi a)) ;;
  when (truthy (arg_archive a) && negb (is_str (arg_archive a)))
    (raise TypeError "invalid archive: %r" (arg_archive a)) ;;
  when (eq_str (arg_driver a) "GPKG" &&
        (get_gdal_version_num S <? calc_gdal_version_num S 1 11 0))
    (raise DriverError
       "GPKG driver requires GDAL 1.11.0, fiona was compiled against: {}"
       (VStr (get_gdal_release_name S))).

(** [layer or os.path.basename(os.path.splitext(path)[0])]. *)
Definition layer_or_stem (a : InitArgs) : value :=
  py_or (arg_layer a) (VStr (path_stem S (as_str (arg_path a)))).

(** The choice of [self.name]. *)
Definition choose_name (a : InitArgs) : M unit :=
  if eq_str (arg_mode a) "w" then
    when (truthy (arg_layer a) && negb (is_str (arg_layer a)))
      (raise ValueError "in 'w' mode, layer names must be strings" VNone) ;;
    if eq_str (arg_driver a) "GeoJSON" then
      when (negb (is_none (arg_layer a)))
        (raise ValueError "the GeoJSON format does not have layers" VNone) ;;
      assign (set_name (VStr "OgrGeoJSON"))
    else
      assign (set_name (layer_or_stem a))
  else
    if eq_zero (arg_layer a) || is_none (arg_layer a)
    then assign (set_name (VInt 0))
    else assign (set_name (layer_or_stem a)).

(** The local [driver] after ['Shapefile'] is rewritten in write mode. *)
Definition effective_driver (a : InitArgs) : value :=
  if eq_str (arg_mode a) "w" && eq_str (arg_driver a) "Shapefile"
  then VStr "ESRI Shapefile"
  else arg_driver a.

(** The coordinate-reference part of the write-mode block. *)
Definition negotiate_crs (a : InitArgs) : M unit :=
  if truthy (arg_crs_wkt a) then
    assign (set__crs_wkt (arg_crs_wkt a))
  else if truthy (arg_crs a) then
    has_init <- lift (py_in "init" (arg_crs a)) ;;
    has_proj <- (if has_init then ret true
                 else lift (py_in "proj" (arg_crs a))) ;;
    has_epsg <- (if has_proj then ret true
                 else (low <- lift (py_lower (arg_crs a)) ;;
                       ret (PyStr.contains "epsg" low))) ;;
    if has_epsg
    then assign (set__crs (arg_crs a))
    else raise CRSError "crs lacks init or proj parameter" VNone
  else ret tt.

(** The block run when [self.mode == 'w']. *)
Definition write_mode_setup (a : InitArgs) : M unit :=
  let driver := effective_driver a in
  (if negb (truthy driver) then
     raise DriverError "no driver" VNone
   else
     match table_get (as_str driver) (supported_drivers S) with
     | None => raise DriverError "unsupported driver: %r" driver
     | Some modes =>
         when (negb (PyStr.contains (as_str (arg_mode a)) modes))
           (raise DriverError "unsupported mode: %r" (arg_mode a))
     end) ;;
  assign (set__driver driver) ;;
  (if negb (truthy (arg_schema a)) then
     raise SchemaError "no schema" VNone
   else
     has_props <- lift (py_in "properties" (arg_schema a)) ;;
     if negb has_props then
       raise SchemaError "schema lacks: properties" VNone
     else
       has_geom <- lift (py_in "geometry" (arg_schema a)) ;;
       when (negb has_geom)
         (raise SchemaError "schema lacks: geometry" VNone)) ;;
  assign (set__schema (arg_schema a)) ;;
  negotiate_crs a.

(** The body of the [try] statement: creates the session object for the
    mode and starts it. *)
Definition open_session (kwargs : list (string * value)) : M unit :=
  c <- get_self ;;
  if String.eqb (mode c) "r" then
    assign (set_session (Some Session)) ;;
    c' <- get_self ;;
    invoke (call_start Session c' kwargs) (fun h => start N h Session c' kwargs)
  else if mode_in_aw (mode c) then
    assign (set_session (Some WritingSession)) ;;
    c' <- get_self ;;
    invoke (call_start WritingSession c' kwargs)
      (fun h => start N h WritingSession c' kwargs)
  else ret tt.

(** The end of [__init__]: enters the runtime context, starts the session
    inside the [try] statement, then checks the driver that the session
    reports and takes its encoding when none was given.  The two branches
    of the test on [driver_count] build the same context. *)
Definition enter_and_open (a : InitArgs) : M unit :=
  assign (set_env (Some tt)) ;;
  invoke call_env_enter (env_enter N) ;;
  assign (set__driver (effective_driver a)) ;;
  let kwargs := kw_update "encoding" (py_or (arg_encoding a) (VStr ""))
                  (arg_kwargs a) in
  assign (set_encoding (arg_encoding a)) ;;
  try_except_IOError (open_session kwargs) (assign (set_session None)) ;;
  c <- get_self ;;
  when (is_some (session c))
    (guard_driver_mode ;;
     c' <- get_self ;;
     when (negb (truthy (encoding c')))
       (enc <- on_session "get_fileencoding"
                 (invoke call_get_fileencoding (get_fileencoding N)) ;;
        assign (set_encoding (VStr (PyStr.lower enc))))).

Definition __init__ (a : InitArgs) : M unit :=
  check_arguments a ;;
  assign (set_session None) ;;
  assign (set_iterator None) ;;
  assign (set__len 0) ;;
  assign (set__bounds VNone) ;;
  assign (set__driver VNone) ;;
  assign (set__schema VNone) ;;
  assign (set__crs VNone) ;;
  assign (set__crs_wkt VNone) ;;
  assign (set_env None) ;;
  assign (set_enabled_drivers (arg_enabled_drivers a)) ;;
  assign (set_path (vsi_path S (as_str (arg_path a)) (arg_vsi a)
                      (arg_archive a))) ;;
  choose_name a ;;
  assign (set_mode (as_str (arg_mode a))) ;;
  when (eq_str (arg_mode a) "w") (write_mode_setup a) ;;
  enter_and_open a.

(** *** Memoised metadata *)

Definition driver : M value :=
  c <- get_self ;;
  when (negb (truthy (_driver c)) && mode_in_ar (mode c) &&
        is_some (session c))
    (d <- invoke call_get_driver (get_driver N) ;;
     assign (set__driver (VStr d))) ;;
  c' <- get_self ;;
  ret (_driver c').

Definition schema : M value :=
  c <- get_self ;;
  when (negb (truthy (_schema c)) && mode_in_ar (mode c) &&
        is_some (session c))
    (s <- invoke call_get_schema (get_schema N) ;;
     assign (set__schema s)) ;;
  c' <- get_self ;;
  ret (_schema c').

Definition crs : M value :=
  c <- get_self ;;
  when (is_none (_crs c) && is_some (session c))
    (v <- invoke call_get_crs (get_crs N) ;;
     assign (set__crs v)) ;;
  c' <- get_self ;;
  ret (_crs c').

Definition crs_wkt : M value :=
  c <- get_self ;;
  when (is_none (_crs_wkt c) && is_some (session c))
    (w <- invoke call_get_crs_wkt (get_crs_wkt N) ;;
     assign (set__crs_wkt (VStr w))) ;;
  c' <- get_self ;;
  ret (_crs_wkt c').

Definition meta : M value :=
  d <- driver ;;
  s <- schema ;;
  c <- crs ;;
  w <- crs_wkt ;;
  ret (VDict [("driver", d); ("schema", s); ("crs", c); ("crs_wkt", w)]).

(** *** Iteration *)

(** The common body of [filter], [items] and [keys], which differ in the
    iterator class they instantiate. *)
Definition iterate (k : IteratorKind) (args : list value)
    (kwds : list (string * value)) : M IteratorObj :=
  c <- get_self ;;
  (if closed c then
     raise ValueError "I/O operation on closed collection" VNone
   else
     when (negb (String.eqb (mode c) "r"))
       (raise IOError "collection not open for reading" VNone)) ;;
  sl <- (match args with
         | [] => ret (VNone, VNone, VNone)
         | _ => lift (slice args)
         end) ;;
  let '(start, stop, step) := sl in
  let bbox := kw_get "bbox" kwds in
  let mask := kw_get "mask" kwds in
  when (truthy bbox && truthy mask)
    (raise ValueError "mask and bbox can not be set together" VNone) ;;
  let it := {| it_kind := k; it_start := start; it_stop := stop;
               it_step := step; it_bbox := bbox; it_mask := mask |} in
  c' <- get_self ;;
  invoke (call_new_iterator it c') (fun h => new_iterator N h it c') ;;
  assign (set_iterator (Some it)) ;;
  ret it.

Definition filter := iterate Iterator.
Definition items := iterate ItemsIterator.
Definition keys := iterate KeysIterator.

Definition __contains__ (fid : value) : M bool :=
  on_session "has_feature"
    (invoke (call_has_feature fid) (fun h => has_feature N h fid)).

Definition values := filter.

Definition __iter__ : M IteratorObj := filter [] [].

Definition __getitem__ (item : value) : M value :=
  on_session "__getitem__"
    (invoke (call_getitem item) (fun h => session_getitem N h item)).

(** *** Writing *)

Definition writerecords (records : list value) : M unit :=
  c <- get_self ;;
  when (closed c)
    (raise ValueError "I/O operation on closed collection" VNone) ;;
  when (negb (mode_in_aw (mode c)))
    (raise IOError "collection not open for writing" VNone) ;;
  invoke (call_writerecs records c) (fun h => writerecs N h records c) ;;
  n <- invoke call_get_length (get_length N) ;;
  assign (set__len n) ;;
  b <- invoke call_get_extent (get_extent N) ;;
  assign (set__bounds b).

Definition write (record : value) : M unit :=
  writerecords [record].

(** [record['geometry']['type']]. *)
Definition geometry_type (record : value) : M value :=
  g <- lift (py_getitem record "geometry") ;;
  lift (py_getitem g "type").

(** [self.schema['geometry']]. *)
Definition schema_geometry : M value :=
  s <- schema ;;
  lift (py_getitem s "geometry").

Definition validate_record_geometry (record : value) : M bool :=
  d <- driver ;;
  special <- (if eq_str d "ESRI Shapefile" then
                t <- geometry_type record ;;
                has_point <- lift (py_in "Point" t) ;;
                ret (negb has_point)
              else ret false) ;;
  if (special : bool) then
    t <- geometry_type record ;;
    lhs <- lift (py_lstrip t "Multi") ;;
    g <- schema_geometry ;;
    g1 <- lift (py_lstrip g "3D ") ;;
    ret (String.eqb lhs (PyStr.lstrip "Multi" g1))
  else
    t <- geometry_type record ;;
    g <- schema_geometry ;;
    g1 <- lift (py_lstrip g "3D ") ;;
    ret (eq_str t g1).

Definition validate_record (record : value) : M bool :=
  p <- lift (py_getitem record "properties") ;;
  rk <- lift (py_keys p) ;;
  s <- schema ;;
  sp <- lift (py_getitem s "properties") ;;
  sk <- lift (py_keys sp) ;;
  if set_eqb rk sk then validate_record_geometry record else ret false.

(** *** Length, extent, flushing and closing *)

Definition __len__ : M Z :=
  c <- get_self ;;
  when ((_len c <=? 0) && is_some (session c))
    (n <- invoke call_get_length (get_length N) ;;
     assign (set__len n)) ;;
  c' <- get_self ;;
  if _len c' <? 0
  then raise TypeError "Layer does not support counting" VNone
  else ret (_len c').

Definition bounds : M value :=
  c <- get_self ;;
  when (is_none (_bounds c) && is_some (session c))
    (b <- invoke call_get_extent (get_extent N) ;;
     assign (set__bounds b)) ;;
  c' <- get_self ;;
  ret (_bounds c').

Definition flush : M unit :=
  c <- get_self ;;
  when (is_some (session c))
    (invoke (call_sync c) (fun h => sync N h c) ;;
     new_len <- invoke call_get_length (get_length N) ;;
     c' <- get_self ;;
     assign (set__len (and_or (new_len >? _len c') new_len (_len c'))) ;;
     b <- invoke call_get_extent (get_extent N) ;;
     assign (set__bounds b)).

Definition close : M unit :=
  c <- get_self ;;
  when (is_some (session c))
    (when (mode_in_aw (mode c)) flush ;;
     invoke call_stop (stop N) ;;
     assign (set_session None) ;;
     assign (set_iterator None)) ;;
  c' <- get_self ;;
  when (is_some (env c'))
    (invoke call_env_exit (env_exit N)).

Definition __enter__ : M unit := ret tt.

Definition __exit__ : M unit := close.

Definition __del__ : M unit := close.

End Methods.
End Col.

(** ** [get_filetype] and [BytesCollection] *)

(** The bytes of [b'PK\x03\x04']. *)
Definition zip_signature : list byte := [x50; x4b; x03; x04].

Fixpoint bytes_startswith (p s : list byte) : bool :=
  match p with
  | [] => true
  | a :: p' =>
      match s with
      | [] => false
      | b :: s' => Byte.eqb a b && bytes_startswith p' s'
      end
  end.

Definition get_filetype (bytesbuf : list byte) : string :=
  if bytes_startswith zip_signature (firstn 4 bytesbuf)
  then "zip"
  else "".

Module BytesCol.
Section Methods.

Variable N : Native.
Variable S : Setup.

(** The names that [Collection.__init__] binds by keyword. *)
Definition named_parameters : list string :=
  ["path"; "mode"; "driver"; "schema"; "crs"; "encoding"; "layer"; "vsi";
   "archive"; "enabled_drivers"; "crs_wkt"].

(** [**kwds] spread over the parameters of [Collection.__init__], next to
    the arguments that [BytesCollection] passes itself. *)
Definition bind_parameters (virtual_file : string) (filetype : string)
    (kwds : list (string * value)) : InitArgs :=
  {| arg_path := VStr virtual_file;
     arg_mode := if kw_mem "mode" kwds then kw_get "mode" kwds else VStr "r";
     arg_driver := kw_get "driver" kwds;
     arg_schema := kw_get "schema" kwds;
     arg_crs := kw_get "crs" kwds;
     arg_encoding := VStr "utf-8";
     arg_layer := kw_get "layer" kwds;
     arg_vsi := VStr filetype;
     arg_archive := kw_get "archive" kwds;
     arg_enabled_drivers := kw_get "enabled_drivers" kwds;
     arg_crs_wkt := kw_get "crs_wkt" kwds;
     arg_kwargs :=
       List.filter
         (fun kv => negb (existsb (String.eqb (fst kv)) named_parameters))
         kwds |}.

(** The extension of the virtual file. *)
Definition choose_ext (filetype : string) (kwds : list (string * value))
  : string :=
  if String.eqb filetype "zip" then ".zip"
  else if eq_str (kw_get "driver" kwds) "GeoJSON" then ".json"
  else "".

Definition __init__ (bytesbuf : value) (kwds : list (string * value))
  : M unit :=
  match bytesbuf with
  | VBytes buf =>
      assign (set_bytesbuf bytesbuf) ;;
      let filetype := get_filetype buf in
      let ext := choose_ext filetype kwds in
      vf <- invoke (call_buffer_to_virtual_file buf ext)
              (fun h => buffer_to_virtual_file N h buf ext) ;;
      assign (set_virtual_file (VStr vf)) ;;
      if kw_mem "path" kwds || kw_mem "vsi" kwds || kw_mem "encoding" kwds
      then raise TypeError "__init__() got multiple values for argument" VNone
      else Col.__init__ N S (bind_parameters vf filetype kwds)
  | _ => raise ValueError "input buffer must be bytes" VNone
  end.

Definition close : M unit :=
  Col.close N ;;
  c <- get_self ;;
  when (truthy (virtual_file c))
    (invoke (call_remove_virtual_file (virtual_file c))
       (fun h => remove_virtual_file N h (virtual_file c)) ;;
     assign (set_virtual_file VNone) ;;
     assign (set_bytesbuf VNone)).

End Methods.
End BytesCol.

(** ** Observations on traces and states *)

Definition is_env_enter (e : Event) : bool :=
  match ev_call e with call_env_enter => true | _ => false end.

Definition is_env_exit (e : Event) : bool :=
  match ev_call e with call_env_exit => true | _ => false end.

Definition is_stop (e : Event) : bool :=
  match ev_call e with call_stop => true | _ => false end.

Definition is_sync (e : Event) : bool :=
  match ev_call e with call_sync _ => true | _ => false end.

Definition is_new_iterator (e : Event) : bool :=
  match ev_call e with call_new_iterator _ _ => true | _ => false end.

(** Number of events of a trace that satisfy [p]. *)
Definition count (p : Event -> bool) (t : Trace) : nat :=
  List.length (List.filter p t).

(** The events that were added to the history [before] to give [after]. *)
Definition events_since (before after : Trace) : Trace :=
  firstn (List.length after - List.length before) after.

(** The exception raised by [start], when the newest event is a failed
    [start]. *)
Definition failed_start (t : Trace) : option exn :=
  match t with
  | {| ev_call := call_start _ _ _; ev_raised := Some e |} :: _ => Some e
  | _ => None
  end.

(** An event for a call that returned. *)
Definition returned (c : Call) : Event := {| ev_call := c; ev_raised := None |}.

(** The event that [invoke] records for a call with outcome [r]. *)
Definition event_of {A} (c : Call) (r : result A) : Event :=
  {| ev_call := c;
     ev_raised := match r with inl e => Some e | inr _ => None end |}.

(** A method that makes no call into the native layer. *)
Definition silent {A} (m : M A) : Prop :=
  forall st, trace (fst (m st)) = trace st.

(** A method that only ever adds events to the history. *)
Definition extends {A} (m : M A) : Prop :=
  forall st, exists new, trace (fst (m st)) = (new ++ trace st)%list.

(** A method that leaves the attribute read by [f] as it is. *)
Definition keeps {A X} (f : Collection -> X) (m : M A) : Prop :=
  forall st, f (self (fst (m st))) = f (self st).

(** The test that [__init__] applies to [crs]: falsy, a mapping or a string. *)
Definition crs_accepted (v : value) : bool :=
  negb (truthy v && negb (is_dict v || is_str v)).

(** ** Geometry type names

    What the specification calls disregarding the "Multi" prefix and the
    leading 3D marker, written with literal prefixes. *)

(** A name of the form [3D ][Multi]Base, where Base does not begin with a
    character of "Multi" or of "3D ": Point, MultiLineString, 3D Polygon,
    3D MultiPolygon, GeometryCollection, Unknown and so on. *)
Definition geometry_name (s : string) : bool :=
  PyStr.head_outside "Multi3D "
    (PyStr.remove_prefix "Multi" (PyStr.remove_prefix "3D " s)).

(** The rule as the specification words it: for the shapefile driver the
    names agree once "Multi" is disregarded on both sides, for any other
    driver they are equal; the 3D marker of the schema side is ignored. *)
Definition stated_geometry_rule (driver : value) (record_type schema_type : string)
  : bool :=
  if eq_str driver "ESRI Shapefile" then
    String.eqb (PyStr.remove_prefix "Multi" record_type)
      (PyStr.remove_prefix "Multi" (PyStr.remove_prefix "3D " schema_type))
  else
    String.eqb record_type (PyStr.remove_prefix "3D " schema_type).

(** The rule with the guard of the code: the "Multi" case applies to the
    shapefile driver only when the record's type does not contain "Point". *)
Definition guarded_geometry_rule (driver : value) (record_type schema_type : string)
  : bool :=
  if eq_str driver "ESRI Shapefile" &&
     negb (PyStr.contains "Point" record_type) then
    String.eqb (PyStr.remove_prefix "Multi" record_type)
      (PyStr.remove_prefix "Multi" (PyStr.remove_prefix "3D " schema_type))
  else
    String.eqb record_type (PyStr.remove_prefix "3D " schema_type).

(** ** Virtual file extension, as the specification words it *)

Definition has_zip_signature (buf : list byte) : Prop :=
  firstn 4 buf = zip_signature.

(** The same test, decided. *)
Definition zip_signed (buf : list byte) : bool :=
  if list_eq_dec Byte.byte_eq_dec (firstn 4 buf) zip_signature
  then true else false.

(** The first call made into the native layer between two histories. *)
Definition first_call (before after : Trace) : option Call :=
  match rev (events_since before after) with
  | e :: _ => Some (ev_call e)
  | [] => None
  end.

Definition stated_ext (zip : bool) (kwds : list (string * value)) : string :=
  if zip then ".zip"
  else if eq_str (kw_get "driver" kwds) "GeoJSON" then ".json"
  else "".

(** ** Constructor arguments *)

(** A call that passes only [path]: every other parameter at its default. *)
Definition default_args (p : string) : InitArgs :=
  {| arg_path := VStr p; arg_mode := VStr "r"; arg_driver := VNone;
     arg_schema := VNone; arg_crs := VNone; arg_encoding := VNone;
     arg_layer := VNone; arg_vsi := VNone; arg_archive := VNone;
     arg_enabled_drivers := VNone; arg_crs_wkt := VNone; arg_kwargs := [] |}.

Definition with_mode (v : value) (a : InitArgs) : InitArgs :=
  {| arg_path := arg_path a; arg_mode := v; arg_driver := arg_driver a;
     arg_schema := arg_schema a; arg_crs := arg_crs a;
     arg_encoding := arg_encoding a; arg_layer := arg_layer a;
     arg_vsi := arg_vsi a; arg_archive := arg_archive a;
     arg_enabled_drivers := arg_enabled_drivers a;
     arg_crs_wkt := arg_crs_wkt a; arg_kwargs := arg_kwargs a |}.

Definition with_driver (v : value) (a : InitArgs) : InitArgs :=
  {| arg_path := arg_path a; arg_mode := arg_mode a; arg_driver := v;
     arg_schema := arg_schema a; arg_crs := arg_crs a;
     arg_encoding := arg_encoding a; arg_layer := arg_layer a;
     arg_vsi := arg_vsi a; arg_archive := arg_archive a;
     arg_enabled_drivers := arg_enabled_drivers a;
     arg_crs_wkt := arg_crs_wkt a; arg_kwargs := arg_kwargs a |}.

Definition with_schema (v : value) (a : InitArgs) : InitArgs :=
  {| arg_path := arg_path a; arg_mode := arg_mode a;
     arg_driver := arg_driver a; arg_schema := v; arg_crs := arg_crs a;
     arg_encoding := arg_encoding a; arg_layer := arg_layer a;
     arg_vsi := arg_vsi a; arg_archive := arg_archive a;
     arg_enabled_drivers := arg_enabled_drivers a;
     arg_crs_wkt := arg_crs_wkt a; arg_kwargs := arg_kwargs a |}.

Definition with_crs (v : value) (a : InitArgs) : InitArgs :=
  {| arg_path := arg_path a; arg_mode := arg_mode a;
     arg_driver := arg_driver a; arg_schema := arg_schema a; arg_crs := v;
     arg_encoding := arg_encoding a; arg_layer := arg_layer a;
     arg_vsi := arg_vsi a; arg_archive := arg_archive a;
     arg_enabled_drivers := arg_enabled_drivers a;
     arg_crs_wkt := arg_crs_wkt a; arg_kwargs := arg_kwargs a |}.

Definition with_crs_wkt (v : value) (a : InitArgs) : InitArgs :=
  {| arg_path := arg_path a; arg_mode := arg_mode a;
     arg_driver := arg_driver a; arg_schema := arg_schema a;
     arg_crs := arg_crs a; arg_encoding := arg_encoding a;
     arg_layer := arg_layer a; arg_vsi := arg_vsi a;
     arg_archive := arg_archive a;
     arg_enabled_drivers := arg_enabled_drivers a; arg_crs_wkt := v;
     arg_kwargs := arg_kwargs a |}.

(** ** A concrete native layer, for running the methods *)

Module Sample.

Definition point_schema : value :=
  VDict [("geometry", VStr "Point");
         ("properties", VDict [("name", VStr "str")])].

(** A native layer in which every call returns, except that [start] has
    the outcome [start_outcome]; [lengths] is what [get_length] reports at
    each history. *)
Definition native (start_outcome : result unit) (lengths : Trace -> Z)
  : Native :=
  {| env_enter := fun _ => inr tt;
     env_exit := fun _ => inr tt;
     start := fun _ _ _ _ => start_outcome;
     stop := fun _ => inr tt;
     get_driver := fun _ => inr "GeoJSON";
     get_schema := fun _ => inr point_schema;
     get_crs := fun _ => inr (VDict [("init", VStr "epsg:4326")]);
     get_crs_wkt := fun _ => inr "GEOGCS";
     get_fileencoding := fun _ => inr "UTF-8";
     get_length := fun h => inr (lengths h);
     get_extent := fun _ => inr (VTuple [VInt 0; VInt 0; VInt 1; VInt 1]);
     has_feature := fun _ _ => inr true;
     session_getitem := fun _ _ => inr VNone;
     writerecs := fun _ _ _ => inr tt;
     sync := fun _ _ => inr tt;
     new_iterator := fun _ _ _ => inr tt;
     buffer_to_virtual_file := fun _ _ ext => inr ("/vsimem/buffer" ++ ext);
     remove_virtual_file := fun _ _ => inr tt |}.

Definition setup : Setup :=
  {| supported_drivers :=
       [("ESRI Shapefile", "raw"); ("GeoJSON", "rw"); ("GPKG", "rw")];
     get_gdal_version_num := 2020000;
     calc_gdal_version_num := fun a b c => a * 1000000 + b * 10000 + c * 100;
     get_gdal_release_name := "2.2.0";
     valid_vsi := fun s => existsb (String.eqb s) ["zip"; "tar"; "gzip"];
     vsi_path := fun p vsi archive =>
                   if truthy vsi then "/vsi" ++ as_str vsi ++ "/" ++ p else p;
     path_stem := fun p => p |}.

(** The state in which a constructor call starts: a new object and an
    empty history. *)
Definition fresh : State := {| self := new_object; trace := [] |}.

(** A driver that cannot count before the first [sync]: it reports -1
    until then and 0 afterwards. *)
Definition counts_after_sync (h : Trace) : Z :=
  if existsb is_sync h then 0 else -1.

Definition io_error : exn := Exn IOError "no such file or directory" VNone.

Definition null_layer : exn := Exn ValueError "Null layer: %r" (VInt 0).

(** An open collection in write mode for the shapefile driver. *)
Definition shapefile_writer (schema_geometry : string) : State :=
  {| self :=
       {| session := Some WritingSession; iterator := None; _len := 0;
          _bounds := VNone; _driver := VStr "ESRI Shapefile";
          _schema := VDict [("geometry", VStr schema_geometry);
                            ("properties", VDict [])];
          _crs := VNone; _crs_wkt := VNone; env := Some tt;
          enabled_drivers := VNone; path := "out.shp"; name := VStr "out";
          mode := "w"; encoding := VStr "utf-8"; bytesbuf := VNone;
          virtual_file := VNone |};
     trace := [] |}.

(** A GeoJSON-like record with the given geometry type. *)
Definition record_of_type (t : string) : value :=
  VDict [("geometry", VDict [("type", VStr t); ("coordinates", VTuple [])]);
         ("properties", VDict [])].

(** The arguments of [Collection(path, 'w', driver='GeoJSON', schema=...)]. *)
Definition geojson_writer_args : InitArgs :=
  with_schema point_schema
    (with_driver (VStr "GeoJSON")
       (with_mode (VStr "w") (default_args "out.json"))).

End Sample.

(** ** The write contract, as the specification words it

    "Rejects the call if the collection is closed or not opened in
    append/write mode; delegates the batch to the session, then immediately
    refreshes cached length and bounding extent from the session." *)
Definition stated_batch_write (N : Native) (records : list value) (st : State)
  : State * result unit :=
  let c := self st in
  if closed c then
    (st, inl (Exn ValueError "I/O operation on closed collection" VNone))
  else if negb (mode_in_aw (mode c)) then
    (st, inl (Exn IOError "collection not open for writing" VNone))
  else
    let t0 := trace st in
    let w := writerecs N t0 records c in
    let t1 := event_of (call_writerecs records c) w :: t0 in
    match w with
    | inl e => ({| self := c; trace := t1 |}, inl e)
    | inr _ =>
        let l := get_length N t1 in
        let t2 := event_of call_get_length l :: t1 in
        match l with
        | inl e => ({| self := c; trace := t2 |}, inl e)
        | inr n =>
            let x := get_extent N t2 in
            let t3 := event_of call_get_extent x :: t2 in
            match x with
            | inl e => ({| self := set__len n c; trace := t3 |}, inl e)
            | inr b =>
                ({| self := set__bounds b (set__len n c); trace := t3 |},
                 inr tt)
            end
        end
    end.

(** An open collection in read mode with a cached length. *)
Definition reader_with_cached_length (n : Z) : State :=
  {| self :=
       {| session := Some Session; iterator := None; _len := n;
          _bounds := VNone; _driver := VNone; _schema := VNone;
          _crs := VNone; _crs_wkt := VNone; env := Some tt;
          enabled_drivers := VNone; path := "a.shp"; name := VInt 0;
          mode := "r"; encoding := VStr "utf-8"; bytesbuf := VNone;
          virtual_file := VNone |};
     trace := [] |}.

(** ** What a constructor call leaves behind when [start] raises

    [before] is the history at the time of the call and [e] the exception
    that [start] raised as the newest native call: the exception reaches the
    caller as it is, the handle is closed exactly when the exception is an
    [IOError], and the runtime context has been entered and not exited. *)
Definition start_failure_outcome (before : Trace) (e : exn)
    (out : State * result unit) : Prop :=
  failed_start (events_since before (trace (fst out))) = Some e ->
  snd out = inl e /\
  closed (self (fst out)) = is_IOError e /\
  env (self (fst out)) = Some tt /\
  count is_env_enter (events_since before (trace (fst out))) = 1%nat /\
  count is_env_exit (events_since before (trace (fst out))) = 0%nat.

(** ** Further observations *)

Definition is_remove_virtual_file (e : Event) : bool :=
  match ev_call e with call_remove_virtual_file _ => true | _ => false end.

Definition is_start (e : Event) : bool :=
  match ev_call e with call_start _ _ _ => true | _ => false end.

(** The attributes as [__init__] assigns them between the argument checks
    and the choice of the name. *)
Definition reset_attributes (S : Setup) (a : InitArgs) (c : Collection)
  : Collection :=
  set_path (vsi_path S (as_str (arg_path a)) (arg_vsi a) (arg_archive a))
    (set_enabled_drivers (arg_enabled_drivers a)
       (set_env None
          (set__crs_wkt VNone
             (set__crs VNone
                (set__schema VNone
                   (set__driver VNone
                      (set__bounds VNone
                         (set__len 0
                            (set_iterator None (set_session None c)))))))))).

(** The session class that [__init__] instantiates for a mode. *)
Definition session_for (m : string) : SessionKind :=
  if String.eqb m "r" then Session else WritingSession.

(** One of the three modes. *)
Definition valid_mode (m : string) : bool :=
  String.eqb m "r" || String.eqb m "w" || String.eqb m "a".

(** The calls that [flush] makes when they all return, newest first. *)
Definition flush_calls (c : Collection) : Trace :=
  [returned call_get_extent; returned call_get_length;
   returned (call_sync c)].

(** ** What a constructor call leaves behind when the driver check fails

    [before] is the history at the time of the call; the newest native call
    is a [get_driver] that returned, and the constructor raised [e]: the
    error is a [DriverError], and the session that was started is still on
    the handle, not stopped, with the runtime context entered. *)
Definition driver_check_outcome (before : Trace) (e : exn)
    (out : State * result unit) : Prop :=
  snd out = inl e ->
  hd_error (events_since before (trace (fst out))) =
    Some (returned call_get_driver) ->
  exc_type e = DriverError /\
  closed (self (fst out)) = false /\
  env (self (fst out)) = Some tt /\
  count is_start (events_since before (trace (fst out))) = 1%nat /\
  count is_stop (events_since before (trace (fst out))) = 0%nat.

(** A call that raises without any native call. *)
Definition rejected (before : Trace) (out : State * result unit) : Prop :=
  (exists e, snd out = inl e) /\ trace (fst out) = before.

(** * Properties *)

(** ** Calls into the native layer made by the building blocks *)

Lemma silent_ret {A} (a : A) : silent (ret a).
Proof. intro st; reflexivity. Qed.

Lemma silent_raise {A} t msg arg : silent (@raise A t msg arg).
Proof. intro st; reflexivity. Qed.

Lemma silent_assign f : silent (assign f).
Proof. intro st; reflexivity. Qed.

Lemma silent_get_self : silent get_self.
Proof. intro st; reflexivity. Qed.

Lemma silent_lift {A} (r : result A) : silent (lift r).
Proof. intro st; reflexivity. Qed.

Lemma silent_bind {A B} (m : M A) (f : A -> M B) :
  silent m -> (forall a, silent (f a)) -> silent (bind m f).
Proof.
  intros Hm Hf st. unfold bind.
  specialize (Hm st). destruct (m st) as [st1 [e | a]]; simpl in *.
  - exact Hm.
  - rewrite (Hf a st1). exact Hm.
Qed.

Lemma silent_when c (m : M unit) : silent m -> silent (when c m).
Proof. intros Hm. destruct c; simpl; [exact Hm | apply silent_ret]. Qed.

Lemma silent_if {A} (c : bool) (m1 m2 : M A) :
  silent m1 -> silent m2 -> silent (if c then m1 else m2).
Proof. destruct c; auto. Qed.

(** Proves [silent m] for code built from the silent blocks. *)
Ltac quiet :=
  repeat first
    [ apply silent_bind; [ | intros ? ]
    | apply silent_when
    | apply silent_if
    | apply silent_ret
    | apply silent_raise
    | apply silent_assign
    | apply silent_get_self
    | apply silent_lift
    | match goal with
      | |- silent (match ?x with _ => _ end) => destruct x
      end ].

Lemma extends_silent {A} (m : M A) : silent m -> extends m.
Proof. intros H st. exists []. simpl. apply H. Qed.

Lemma extends_invoke {A} c (o : Trace -> result A) : extends (invoke c o).
Proof. intro st. exists [event_of c (o (trace st))]. reflexivity. Qed.

Lemma extends_bind {A B} (m : M A) (f : A -> M B) :
  extends m -> (forall a, extends (f a)) -> extends (bind m f).
Proof.
  intros Hm Hf st. unfold bind.
  destruct (Hm st) as [n1 H1]. destruct (m st) as [st1 [e | a]]; simpl in *.
  - exists n1. exact H1.
  - destruct (Hf a st1) as [n2 H2]. exists (n2 ++ n1)%list.
    rewrite H2, H1. apply app_assoc.
Qed.

Lemma extends_when c (m : M unit) : extends m -> extends (when c m).
Proof.
  intros Hm. destruct c; simpl; [exact Hm | apply extends_silent, silent_ret].
Qed.

Lemma extends_if {A} (c : bool) (m1 m2 : M A) :
  extends m1 -> extends m2 -> extends (if c then m1 else m2).
Proof. destruct c; auto. Qed.

Lemma extends_try (body handler : M unit) :
  extends body -> extends handler -> extends (try_except_IOError body handler).
Proof.
  intros Hb Hh st. unfold try_except_IOError.
  destruct (Hb st) as [n1 H1]. destruct (body st) as [st1 [e | a]]; simpl in *.
  - destruct (is_IOError e).
    + destruct (Hh st1) as [n2 H2].
      destruct (handler st1) as [st2 [e' | u]]; simpl in *;
        exists (n2 ++ n1)%list; rewrite H2, H1; apply app_assoc.
    + exists n1. exact H1.
  - exists n1. exact H1.
Qed.

Lemma events_since_app (new before : Trace) :
  events_since before (new ++ before)%list = new.
Proof.
  unfold events_since. rewrite length_app.
  replace (List.length new + List.length before - List.length before)%nat
    with (List.length new) by lia.
  rewrite firstn_app, firstn_all, Nat.sub_diag. simpl. apply app_nil_r.
Qed.

(** ** The argument checks and the attribute set-up make no native call *)

Section Prelude.

Variable N : Native.
Variable S : Setup.

Lemma check_arguments_silent a : silent (Col.check_arguments S a).
Proof. unfold Col.check_arguments. quiet. Qed.

Lemma choose_name_silent a : silent (Col.choose_name S a).
Proof. unfold Col.choose_name. quiet. Qed.

Lemma negotiate_crs_silent a : silent (Col.negotiate_crs a).
Proof. unfold Col.negotiate_crs. quiet. Qed.

Lemma write_mode_setup_silent a : silent (Col.write_mode_setup S a).
Proof.
  unfold Col.write_mode_setup, Col.negotiate_crs. quiet.
Qed.

End Prelude.

(** ** Reading from a closed collection *)

Section ClosedReads.

Variable N : Native.

(** The iterator entry points test [closed] first and raise the state
    error without touching the handle or the native layer. *)
Lemma iterate_closed k args kwds st :
  closed (self st) = true ->
  Col.iterate N k args kwds st =
    (st, inl (Exn ValueError "I/O operation on closed collection" VNone)).
Proof.
  intros Hc. unfold Col.iterate, bind, get_self. rewrite Hc. reflexivity.
Qed.

(** Membership and item lookup dereference the session without testing
    [closed]: on a closed collection, the error is the [AttributeError] of
    [None]. *)
Lemma on_session_closed {A} attr (k : M A) st :
  closed (self st) = true ->
  Col.on_session attr k st =
    (st, inl (Exn AttributeError "'NoneType' object has no attribute %r"
                (VStr attr))).
Proof.
  unfold closed, Col.on_session, bind, get_self.
  destruct (session (self st)); [discriminate | reflexivity].
Qed.

End ClosedReads.

(** C1 (evaluation of the code): on a closed collection [filter], [items] and
    [keys] raise the state error [ValueError("I/O operation on closed
    collection")], but [fid in collection] and [collection[item]] raise the
    [AttributeError] of the [None] session, not a state error. *)
Theorem closed_reads (N : Native) (st : State) (x : value)
    (args : list value) (kwds : list (string * value)) :
  closed (self st) = true ->
  let state_error :=
    Exn ValueError "I/O operation on closed collection" VNone in
  let none_error attr :=
    Exn AttributeError "'NoneType' object has no attribute %r" (VStr attr) in
  Col.filter N args kwds st = (st, inl state_error) /\
  Col.items N args kwds st = (st, inl state_error) /\
  Col.keys N args kwds st = (st, inl state_error) /\
  Col.__contains__ N x st = (st, inl (none_error "has_feature")) /\
  Col.__getitem__ N x st = (st, inl (none_error "__getitem__")).
Proof.
  intros Hc. cbv zeta. repeat split.
  - apply iterate_closed, Hc.
  - apply iterate_closed, Hc.
  - apply iterate_closed, Hc.
  - apply on_session_closed, Hc.
  - apply on_session_closed, Hc.
Qed.

Lemma closed_reads_witness :
  exc_type
    (match snd (Col.__contains__ (Sample.native (inr tt) (fun _ => 0))
                  (VStr "1") Sample.fresh) with
     | inl e => e
     | inr _ => Exn ValueError "" VNone
     end) = AttributeError.
Proof.
  pose proof (closed_reads (Sample.native (inr tt) (fun _ => 0)) Sample.fresh
                (VStr "1") [] [] eq_refl) as H.
  cbv zeta in H. destruct H as (_ & _ & _ & H & _).
  rewrite H. reflexivity.
Defined.

(** ** Bounding box and mask together *)

Lemma slice_of_arguments_is_pure (args : list value) :
  exists r,
    match args with
    | [] => ret (VNone, VNone, VNone)
    | _ => lift (slice args)
    end = lift r.
Proof. destruct args; eexists; reflexivity. Qed.

Lemma iterate_bbox_and_mask (N : Native) k args kwds st :
  truthy (kw_get "bbox" kwds) = true ->
  truthy (kw_get "mask" kwds) = true ->
  exists e, Col.iterate N k args kwds st = (st, inl e).
Proof.
  intros Hb Hm. unfold Col.iterate.
  destruct (slice_of_arguments_is_pure args) as [r ->].
  unfold bind, get_self, when, lift. rewrite Hb, Hm.
  destruct (closed (self st)); [eexists; reflexivity | ].
  destruct (String.eqb (mode (self st)) "r"); simpl;
    [ | eexists; reflexivity ].
  destruct r as [e | [[a b] c]]; eexists; reflexivity.
Qed.

(** C5: a call to [filter], [items] or [keys] that supplies both a bounding
    box and a mask raises an error; the handle (its stored iterator included)
    and the history of native calls are left as they were, so no iterator
    object is constructed. *)
Theorem bbox_and_mask_rejected (N : Native) (args : list value)
    (kwds : list (string * value)) (st : State) :
  truthy (kw_get "bbox" kwds) = true ->
  truthy (kw_get "mask" kwds) = true ->
  (exists e, Col.filter N args kwds st = (st, inl e)) /\
  (exists e, Col.items N args kwds st = (st, inl e)) /\
  (exists e, Col.keys N args kwds st = (st, inl e)).
Proof.
  intros Hb Hm. repeat split; apply iterate_bbox_and_mask; assumption.
Qed.

Lemma bbox_and_mask_rejected_witness :
  exists e,
    Col.filter (Sample.native (inr tt) (fun _ => 0)) []
      [("bbox", VTuple [VInt 0; VInt 0; VInt 1; VInt 1]);
       ("mask", VDict [("type", VStr "Point")])]
      (reader_with_cached_length 0)
    = (reader_with_cached_length 0, inl e).
Proof.
  apply (bbox_and_mask_rejected (Sample.native (inr tt) (fun _ => 0)) []
           [("bbox", VTuple [VInt 0; VInt 0; VInt 1; VInt 1]);
            ("mask", VDict [("type", VStr "Point")])]
           (reader_with_cached_length 0));
    reflexivity.
Defined.

(** On an open collection in read mode, called with at most three positional
    arguments, the error is the one that names the conflict. *)
Lemma bbox_and_mask_error (N : Native) k kwds st :
  closed (self st) = false ->
  mode (self st) = "r" ->
  truthy (kw_get "bbox" kwds) = true ->
  truthy (kw_get "mask" kwds) = true ->
  Col.iterate N k [] kwds st =
    (st, inl (Exn ValueError "mask and bbox can not be set together" VNone)).
Proof.
  intros Hc Hmode Hb Hm.
  unfold Col.iterate, bind, get_self, when, lift.
  rewrite Hc, Hmode, Hb, Hm. reflexivity.
Qed.

(** ** Writing one record *)

Lemma writerecords_stated (N : Native) records st :
  Col.writerecords N records st = stated_batch_write N records st.
Proof.
  unfold Col.writerecords, stated_batch_write, bind, get_self, when, invoke,
    assign, event_of.
  destruct (closed (self st)); simpl; [reflexivity | ].
  destruct (mode_in_aw (mode (self st))); simpl; [ | reflexivity ].
  destruct (writerecs N (trace st) records (self st)) as [e | []]; simpl;
    [reflexivity | ].
  destruct (get_length N _) as [e | n]; simpl; [reflexivity | ].
  destruct (get_extent N _) as [e | b]; reflexivity.
Qed.

(** C9: [write(record)] is [writerecords([record])]: the same outcome and the
    same final state on every state, hence the same closed and mode checks
    and the same refresh of the cached length and extent, which are those of
    the stated write contract for a batch of one. *)
Theorem write_is_batch_of_one (N : Native) (record : value) (st : State) :
  Col.write N record st = Col.writerecords N [record] st /\
  Col.write N record st = stated_batch_write N [record] st.
Proof.
  split.
  - reflexivity.
  - unfold Col.write. apply writerecords_stated.
Qed.

(** ** Length *)

(** C10 (as amended): on an open collection that has no positive length
    cached, [len] asks the session; a negative answer is cached and
    [TypeError] is raised, a non-negative answer is cached and returned.
    With a positive length cached, [len] returns it and the session is not
    asked. *)
Theorem len_of_open_collection (N : Native) (st : State) :
  closed (self st) = false ->
  (_len (self st) <= 0 ->
   forall n, get_length N (trace st) = inr n ->
     Col.__len__ N st =
       ({| self := set__len n (self st);
           trace := returned call_get_length :: trace st |},
        if n <? 0
        then inl (Exn TypeError "Layer does not support counting" VNone)
        else inr n)) /\
  (0 < _len (self st) ->
   Col.__len__ N st = (st, inr (_len (self st)))).
Proof.
  intros Hopen. unfold closed in Hopen.
  destruct (session (self st)) as [k | ] eqn:Hs; [ | discriminate ].
  split.
  - intros Hle n Hn.
    unfold Col.__len__, bind, get_self, when, invoke, assign.
    rewrite Hs. simpl.
    replace (_len (self st) <=? 0) with true by (symmetry; apply Z.leb_le, Hle).
    simpl. rewrite Hn. simpl.
    destruct (n <? 0); reflexivity.
  - intros Hpos.
    unfold Col.__len__, bind, get_self, when.
    replace (_len (self st) <=? 0) with false
      by (symmetry; apply Z.leb_gt, Hpos).
    simpl.
    replace (_len (self st) <? 0) with false
      by (symmetry; apply Z.ltb_ge; lia).
    reflexivity.
Qed.

Lemma len_of_open_collection_witness :
  snd (Col.__len__ (Sample.native (inr tt) (fun _ => 67))
         (reader_with_cached_length 0)) = inr 67.
Proof.
  rewrite (proj1 (len_of_open_collection (Sample.native (inr tt) (fun _ => 67))
                    (reader_with_cached_length 0) eq_refl)
             ltac:(simpl; lia) 67 eq_refl).
  reflexivity.
Defined.

(** C10 (counterexample): an open collection with the length 5 cached, whose
    session reports -1: [len] returns 5 and raises nothing. *)
Lemma cached_length_hides_negative_report :
  let N := Sample.native (inr tt) (fun _ => -1) in
  let st := reader_with_cached_length 5 in
  closed (self st) = false /\
  get_length N (trace st) = inr (-1) /\
  Col.__len__ N st = (st, inr 5).
Proof. repeat split. Qed.

(** ** Flushing *)

Lemma and_or_max (l n : Z) :
  0 <= l \/ n <> 0 -> and_or (n >? l) n l = Z.max l n.
Proof.
  intros H. unfold and_or.
  destruct (n >? l) eqn:Hgt.
  - apply Z.gtb_lt in Hgt. destruct (n =? 0) eqn:Hz.
    + apply Z.eqb_eq in Hz. lia.
    + lia.
  - assert (n <= l) by (rewrite Z.gtb_ltb in Hgt; apply Z.ltb_ge, Hgt). lia.
Qed.

Lemma and_or_ge (l n : Z) : l <= and_or (n >? l) n l.
Proof.
  unfold and_or. destruct (n >? l) eqn:Hgt; [ | lia ].
  apply Z.gtb_lt in Hgt. destruct (n =? 0); lia.
Qed.

(** What [flush] does on an open collection when the three native calls
    return. *)
Lemma flush_open (N : Native) st n b :
  closed (self st) = false ->
  let t1 := returned (call_sync (self st)) :: trace st in
  let t2 := returned call_get_length :: t1 in
  sync N (trace st) (self st) = inr tt ->
  get_length N t1 = inr n ->
  get_extent N t2 = inr b ->
  Col.flush N st =
    ({| self := set__bounds b
                  (set__len (and_or (n >? _len (self st)) n (_len (self st)))
                     (self st));
        trace := returned call_get_extent :: t2 |}, inr tt).
Proof.
  intros Hopen t1 t2 Hsync Hlen Hext. unfold closed in Hopen.
  subst t1 t2. unfold returned in *.
  unfold Col.flush, bind, get_self, when, invoke, assign.
  destruct (session (self st)); [ | discriminate ]. simpl.
  rewrite Hsync. simpl. rewrite Hlen. simpl. rewrite Hext. reflexivity.
Qed.

(** The cached length never goes down in a flush, whatever the native layer
    answers. *)
Lemma flush_never_lowers_cached_length (N : Native) st :
  _len (self st) <= _len (self (fst (Col.flush N st))).
Proof.
  unfold Col.flush, bind, get_self, when, invoke, assign.
  destruct (session (self st)); simpl; [ | lia ].
  destruct (sync N (trace st) (self st)) as [e | []]; simpl; [lia | ].
  destruct (get_length N _) as [e | n]; simpl; [lia | ].
  destruct (get_extent N _) as [e | b]; simpl; apply and_or_ge.
Qed.

(** X20: on an open collection whose three native calls return, away from
    the case of a negative cached length and a report of zero, [flush] sets
    the cached length to the larger of the cached and the reported length,
    and the cached extent to the one reported. *)
Lemma flush_takes_larger_length (N : Native) st n b :
  closed (self st) = false ->
  sync N (trace st) (self st) = inr tt ->
  get_length N (returned (call_sync (self st)) :: trace st) = inr n ->
  get_extent N (returned call_get_length ::
                returned (call_sync (self st)) :: trace st) = inr b ->
  0 <= _len (self st) \/ n <> 0 ->
  _len (self (fst (Col.flush N st))) = Z.max (_len (self st)) n /\
  _bounds (self (fst (Col.flush N st))) = b.
Proof.
  intros Hopen Hsync Hlen Hext Hcase.
  rewrite (flush_open N st n b Hopen Hsync Hlen Hext). simpl.
  split; [apply and_or_max, Hcase | reflexivity].
Qed.

(** C3 (evaluation of the code): when a negative length is cached and the
    session reports 0 after the [sync], [flush] keeps the negative cached
    length, which is below the larger of the two; the extent is refreshed. *)
Theorem flush_keeps_negative_length_at_zero (N : Native) (st : State)
    (b : value) :
  closed (self st) = false ->
  _len (self st) < 0 ->
  sync N (trace st) (self st) = inr tt ->
  get_length N (returned (call_sync (self st)) :: trace st) = inr 0 ->
  get_extent N (returned call_get_length ::
                returned (call_sync (self st)) :: trace st) = inr b ->
  _len (self (fst (Col.flush N st))) = _len (self st) /\
  _len (self (fst (Col.flush N st))) < Z.max (_len (self st)) 0 /\
  _bounds (self (fst (Col.flush N st))) = b.
Proof.
  intros Hopen Hneg Hsync Hlen Hext.
  rewrite (flush_open N st 0 b Hopen Hsync Hlen Hext). simpl.
  unfold and_or. destruct (0 >? _len (self st)); simpl; repeat split; lia.
Qed.

(** A GeoJSON collection is opened for writing on a driver that cannot count
    before the first [sync]; [len] is tried (and caches -1), then [flush]. *)
Lemma flush_keeps_negative_length_at_zero_witness :
  let N := Sample.native (inr tt) Sample.counts_after_sync in
  let opened := fst (Col.__init__ N Sample.setup Sample.geojson_writer_args
                       Sample.fresh) in
  let counted := fst (Col.__len__ N opened) in
  _len (self counted) = -1 /\
  _len (self (fst (Col.flush N counted))) = -1 /\
  Z.max (_len (self counted)) 0 = 0.
Proof.
  intros N opened counted.
  pose proof (flush_keeps_negative_length_at_zero N counted
                (VTuple [VInt 0; VInt 0; VInt 1; VInt 1])
                eq_refl eq_refl eq_refl eq_refl eq_refl) as (H1 & _ & _).
  split; [reflexivity | split; [rewrite H1; reflexivity | reflexivity]].
Defined.

(** X21: what [len] returns does not go down across a [flush]: a value
    returned by [len] after a flush that returned is at least the value that
    [len] returned before it. *)
Lemma len_never_decreases_across_flush (N : Native) st st1 st2 st3 v v' :
  Col.__len__ N st = (st1, inr v) ->
  Col.flush N st1 = (st2, inr tt) ->
  Col.__len__ N st2 = (st3, inr v') ->
  v <= v'.
Proof.
  intros H1 H2 H3.
  assert (Hret : forall s s' x, Col.__len__ N s = (s', inr x) ->
                   _len (self s') = x /\ 0 <= x /\
                   (0 < _len (self s) -> x = _len (self s))).
  { intros s s' x. unfold Col.__len__, bind, get_self, when, invoke, assign.
    destruct ((_len (self s) <=? 0) && is_some (session (self s))) eqn:Hc;
      simpl.
    - destruct (get_length N (trace s)) as [e | n]; simpl; [discriminate | ].
      destruct (n <? 0) eqn:Hn; [discriminate | ].
      intros [= <- <-]. simpl. apply Z.ltb_ge in Hn.
      apply andb_true_iff in Hc. destruct Hc as [Hc _].
      apply Z.leb_le in Hc. repeat split; lia.
    - destruct (_len (self s) <? 0) eqn:Hn; [discriminate | ].
      intros [= <- <-]. apply Z.ltb_ge in Hn. repeat split; lia. }
  destruct (Hret _ _ _ H1) as (Hv & Hv0 & _).
  destruct (Hret _ _ _ H3) as (_ & Hv'0 & Hcached).
  pose proof (flush_never_lowers_cached_length N st1) as Hfl.
  rewrite H2 in Hfl. simpl in Hfl.
  destruct (Z_lt_le_dec 0 (_len (self st2))) as [Hpos | Hnon].
  - rewrite (Hcached Hpos). lia.
  - lia.
Qed.

(** ** Closing *)

Lemma count_cons p (e : Event) t :
  count p (e :: t) = if p e then Datatypes.S (count p t) else count p t.
Proof. unfold count. simpl. destruct (p e); reflexivity. Qed.

(** [flush] never stops the session and never leaves the runtime context. *)
Lemma flush_counts (N : Native) st :
  count is_stop (trace (fst (Col.flush N st))) = count is_stop (trace st) /\
  count is_env_exit (trace (fst (Col.flush N st))) =
    count is_env_exit (trace st) /\
  session (self (fst (Col.flush N st))) = session (self st) /\
  iterator (self (fst (Col.flush N st))) = iterator (self st) /\
  env (self (fst (Col.flush N st))) = env (self st) /\
  mode (self (fst (Col.flush N st))) = mode (self st).
Proof.
  unfold Col.flush, bind, get_self, when, invoke, assign.
  destruct (session (self st)) eqn:Hs; simpl;
    [ | repeat split; assumption ].
  destruct (sync N (trace st) (self st)) as [e | []]; simpl;
    [repeat split; assumption | ].
  destruct (get_length N _) as [e | n]; simpl; [repeat split; assumption | ].
  destruct (get_extent N _) as [e | b]; simpl; repeat split; assumption.
Qed.

(** The first [close] of an open collection, when it returns: the session has
    been stopped exactly once, the handle is closed and holds no iterator. *)
Lemma close_open_collection (N : Native) st st' :
  closed (self st) = false ->
  Col.close N st = (st', inr tt) ->
  closed (self st') = true /\
  iterator (self st') = None /\
  count is_stop (trace st') = Datatypes.S (count is_stop (trace st)).
Proof.
  intros Hopen. unfold closed in Hopen.
  destruct (session (self st)) eqn:Hs; [ | discriminate ].
  assert (Hfl : forall stf r,
            when (mode_in_aw (mode (self st))) (Col.flush N) st = (stf, r) ->
            count is_stop (trace stf) = count is_stop (trace st)).
  { intros stf r. destruct (mode_in_aw (mode (self st))); simpl.
    - intros E. pose proof (flush_counts N st) as (Hc1 & _).
      rewrite E in Hc1. exact Hc1.
    - unfold ret. intros [= <- _]. reflexivity. }
  unfold Col.close, bind, get_self. rewrite Hs. unfold is_some at 1.
  unfold when at 1.
  destruct (when (mode_in_aw (mode (self st))) (Col.flush N) st)
    as [stf [e | []]] eqn:Ef; [discriminate | ].
  specialize (Hfl _ _ eq_refl).
  unfold invoke, assign, when. simpl.
  destruct (stop N (trace stf)) as [e | []]; simpl; [discriminate | ].
  destruct (env (self stf)); simpl.
  - destruct (env_exit N _) as [e | []]; simpl; [discriminate | ].
    intros [= <-]. simpl. rewrite !count_cons. simpl. rewrite Hfl.
    repeat split.
  - unfold ret. intros [= <-]. simpl. rewrite !count_cons. simpl. rewrite Hfl.
    repeat split.
Qed.

(** On a closed collection [close] does not stop a session and leaves the
    handle as it is, whatever the runtime context answers. *)
Lemma close_closed_collection (N : Native) st :
  closed (self st) = true ->
  self (fst (Col.close N st)) = self st /\
  count is_stop (trace (fst (Col.close N st))) = count is_stop (trace st).
Proof.
  intros Hc. unfold closed in Hc.
  unfold Col.close, bind, get_self, when, invoke.
  destruct (session (self st)); [discriminate | ]. simpl.
  destruct (env (self st)); simpl; [ | split; reflexivity ].
  destruct (env_exit N (trace st)) as [e | []]; simpl; split; reflexivity.
Qed.

(** Without a session, [close] makes one native call, the exit of the
    runtime context that the handle still refers to. *)
Lemma close_without_session (N : Native) (st : State) :
  closed (self st) = true ->
  env (self st) = Some tt ->
  Col.close N st =
    ({| self := self st;
        trace := event_of call_env_exit (env_exit N (trace st)) :: trace st |},
     env_exit N (trace st)).
Proof.
  intros Hc He. unfold closed in Hc.
  unfold Col.close, bind, get_self, when, invoke, event_of.
  destruct (session (self st)); [discriminate | ]. simpl.
  rewrite He. simpl.
  destruct (env_exit N (trace st)) as [e | []]; reflexivity.
Qed.

(** C6 (evaluation of the code): [close] on a collection that is already
    closed and still refers to its runtime context leaves the handle (its
    session and iterator included) as it is and stops no session, but calls
    the exit of the runtime context once more: the only native call it makes. *)
Theorem close_again_exits_environment (N : Native) (st : State) :
  closed (self st) = true ->
  env (self st) = Some tt ->
  Col.close N st =
    ({| self := self st;
        trace := event_of call_env_exit (env_exit N (trace st)) :: trace st |},
     env_exit N (trace st)) /\
  count is_stop (trace (fst (Col.close N st))) = count is_stop (trace st) /\
  count is_env_exit (trace (fst (Col.close N st))) =
    Datatypes.S (count is_env_exit (trace st)).
Proof.
  intros Hc He. rewrite (close_without_session N st Hc He).
  split; [reflexivity | ]. simpl. rewrite !count_cons. simpl.
  split; reflexivity.
Qed.

(** A collection is opened for reading and closed twice: the runtime context
    is entered once and exited twice, the session is stopped once. *)
Lemma close_again_exits_environment_witness :
  let N := Sample.native (inr tt) (fun _ => 67) in
  let opened := fst (Col.__init__ N Sample.setup (default_args "a.shp")
                       Sample.fresh) in
  let closed_once := fst (Col.close N opened) in
  let closed_twice := fst (Col.close N closed_once) in
  count is_env_enter (trace closed_twice) = 1%nat /\
  count is_env_exit (trace closed_twice) = 2%nat /\
  count is_stop (trace closed_twice) = 1%nat.
Proof.
  intros N opened closed_once closed_twice.
  unfold closed_twice.
  rewrite (proj1 (close_again_exits_environment N closed_once eq_refl eq_refl)).
  split; [reflexivity | split; reflexivity].
Defined.

(** ** Geometry validation *)

Section StripLemmas.

Import PyStr.

Lemma strip_prefix_Some p : forall s r,
  strip_prefix p s = Some r -> s = p ++ r.
Proof.
  induction p as [ | a p IH]; intros s r; simpl.
  - intros [= ->]. reflexivity.
  - destruct s as [ | b s]; [discriminate | ].
    destruct (Ascii.eqb a b) eqn:E; [ | discriminate ].
    apply Ascii.eqb_eq in E. subst b. intros H. rewrite (IH _ _ H).
    reflexivity.
Qed.

Lemma char_in_app c a b : char_in c (a ++ b) = char_in c a || char_in c b.
Proof.
  induction a as [ | d a IH]; simpl; [reflexivity | ].
  rewrite IH. apply orb_assoc.
Qed.

Lemma lstrip_head_outside chars s :
  head_outside chars s = true -> lstrip chars s = s.
Proof.
  destruct s as [ | c s]; simpl; [reflexivity | ].
  intros H. apply negb_true_iff in H. rewrite H. reflexivity.
Qed.

Lemma head_outside_left a b s :
  head_outside (a ++ b) s = true -> head_outside a s = true.
Proof.
  destruct s as [ | c s]; simpl; [reflexivity | ].
  rewrite char_in_app. intros H. apply negb_true_iff in H.
  apply orb_false_iff in H. destruct H as [H _]. rewrite H. reflexivity.
Qed.

Lemma head_outside_right a b s :
  head_outside (a ++ b) s = true -> head_outside b s = true.
Proof.
  destruct s as [ | c s]; simpl; [reflexivity | ].
  rewrite char_in_app. intros H. apply negb_true_iff in H.
  apply orb_false_iff in H. destruct H as [_ H]. rewrite H. reflexivity.
Qed.

(** On a name [Multi]Base, stripping the characters of "Multi" removes
    the prefix "Multi" and nothing else. *)
Lemma lstrip_Multi x :
  head_outside "Multi3D " (remove_prefix "Multi" x) = true ->
  lstrip "Multi" x = remove_prefix "Multi" x.
Proof.
  unfold remove_prefix.
  destruct (strip_prefix "Multi" x) as [r | ] eqn:E; intros H.
  - apply strip_prefix_Some in E. subst x. simpl.
    apply lstrip_head_outside.
    apply (head_outside_left "Multi" "3D "). exact H.
  - apply lstrip_head_outside.
    apply (head_outside_left "Multi" "3D "). exact H.
Qed.

Lemma lstrip_3D_untouched r :
  head_outside "Multi3D " (remove_prefix "Multi" r) = true ->
  lstrip "3D " r = r.
Proof.
  unfold remove_prefix.
  destruct (strip_prefix "Multi" r) as [b | ] eqn:E; intros H.
  - apply strip_prefix_Some in E. subst r. reflexivity.
  - apply lstrip_head_outside.
    apply (head_outside_right "Multi" "3D "). exact H.
Qed.

(** On a name [3D ][Multi]Base, stripping the characters of "3D " removes
    the marker "3D " and nothing else. *)
Lemma lstrip_3D s :
  geometry_name s = true -> lstrip "3D " s = remove_prefix "3D " s.
Proof.
  unfold geometry_name. unfold remove_prefix at 2 3.
  destruct (strip_prefix "3D " s) as [r | ] eqn:E; intros H.
  - apply strip_prefix_Some in E. subst s. simpl.
    apply lstrip_3D_untouched, H.
  - apply lstrip_3D_untouched, H.
Qed.

(** A record-side name: the marker "3D " is not stripped there, and a
    name that carries it is left alone by the "Multi" strip. *)
Lemma lstrip_Multi_record s :
  geometry_name s = true -> lstrip "Multi" s = remove_prefix "Multi" s.
Proof.
  unfold geometry_name. unfold remove_prefix at 2.
  destruct (strip_prefix "3D " s) as [r | ] eqn:E; intros H.
  - apply strip_prefix_Some in E. subst s. reflexivity.
  - apply lstrip_Multi, H.
Qed.

End StripLemmas.

(** C4 (as amended): for geometry type names of the form [3D ][Multi]Base,
    record-geometry validation returns true exactly as follows: when the
    driver is "ESRI Shapefile" and the record's type does not contain
    "Point", the record's type with the "Multi" prefix disregarded equals the
    schema type with the 3D marker and the "Multi" prefix disregarded; in
    every other case (another driver, or a type that contains "Point") the
    record's type equals the schema type with the 3D marker removed. *)
Theorem validate_record_geometry_rule (N : Native) (st st1 st2 : State)
    (record g d sch : value) (rt sg : string) :
  py_getitem record "geometry" = inr g ->
  py_getitem g "type" = inr (VStr rt) ->
  Col.driver N st = (st1, inr d) ->
  Col.schema N st1 = (st2, inr sch) ->
  py_getitem sch "geometry" = inr (VStr sg) ->
  geometry_name rt = true ->
  geometry_name sg = true ->
  Col.validate_record_geometry N record st =
    (st2, inr (guarded_geometry_rule d rt sg)).
Proof.
  intros Hg Ht Hd Hs Hsg Hrt Hgn.
  unfold Col.validate_record_geometry, guarded_geometry_rule.
  unfold bind at 1. rewrite Hd.
  unfold Col.geometry_type, Col.schema_geometry.
  destruct (eq_str d "ESRI Shapefile"); simpl.
  - unfold bind, lift, ret. rewrite Hg, Ht. simpl.
    destruct (PyStr.contains "Point" rt); simpl.
    + rewrite Hs, Hsg. simpl.
      rewrite (lstrip_3D sg Hgn). reflexivity.
    + rewrite Hs, Hsg. simpl.
      rewrite (lstrip_Multi_record rt Hrt), (lstrip_3D sg Hgn).
      rewrite (lstrip_Multi (PyStr.remove_prefix "3D " sg) Hgn).
      reflexivity.
  - unfold bind, lift, ret. rewrite Hg, Ht, Hs, Hsg. simpl.
    rewrite (lstrip_3D sg Hgn). reflexivity.
Qed.

Lemma validate_record_geometry_rule_witness :
  Col.validate_record_geometry (Sample.native (inr tt) (fun _ => 0))
    (Sample.record_of_type "MultiPolygon")
    (Sample.shapefile_writer "3D Polygon")
  = (Sample.shapefile_writer "3D Polygon", inr true).
Proof.
  apply (validate_record_geometry_rule (Sample.native (inr tt) (fun _ => 0))
           (Sample.shapefile_writer "3D Polygon")
           (Sample.shapefile_writer "3D Polygon")
           (Sample.shapefile_writer "3D Polygon")
           (Sample.record_of_type "MultiPolygon")
           (VDict [("type", VStr "MultiPolygon"); ("coordinates", VTuple [])])
           (VStr "ESRI Shapefile")
           (VDict [("geometry", VStr "3D Polygon"); ("properties", VDict [])])
           "MultiPolygon" "3D Polygon");
    reflexivity.
Defined.

(** The usual geometry type names are of the form that the rule is stated
    for. *)
Lemma usual_names_are_geometry_names :
  forallb geometry_name
    ["Point"; "LineString"; "Polygon"; "MultiPoint"; "MultiLineString";
     "MultiPolygon"; "GeometryCollection"; "Unknown"; "None"; "LinearRing";
     "3D Point"; "3D LineString"; "3D Polygon"; "3D MultiPoint";
     "3D MultiLineString"; "3D MultiPolygon"; "3D GeometryCollection";
     "3D Unknown"] = true.
Proof. reflexivity. Qed.

(** C4 (counterexample): for the shapefile driver, a "MultiPoint" record is
    rejected against a "Point" schema, although the two names agree once the
    "Multi" prefix is disregarded. *)
Lemma multipoint_rejected_for_point_shapefile :
  let st := Sample.shapefile_writer "Point" in
  Col.validate_record_geometry (Sample.native (inr tt) (fun _ => 0))
    (Sample.record_of_type "MultiPoint") st = (st, inr false) /\
  stated_geometry_rule (VStr "ESRI Shapefile") "MultiPoint" "Point" = true.
Proof. split; reflexivity. Qed.

(** ** Opening *)

Lemma events_since_0 (t : Trace) : events_since t t = [].
Proof. apply (events_since_app [] t). Qed.

Lemma events_since_1 (t : Trace) a : events_since t (a :: t) = [a].
Proof. apply (events_since_app [a] t). Qed.

Lemma events_since_2 (t : Trace) a b : events_since t (a :: b :: t) = [a; b].
Proof. apply (events_since_app [a; b] t). Qed.

Lemma events_since_3 (t : Trace) a b c :
  events_since t (a :: b :: c :: t) = [a; b; c].
Proof. apply (events_since_app [a; b; c] t). Qed.

Lemma events_since_4 (t : Trace) a b c d :
  events_since t (a :: b :: c :: d :: t) = [a; b; c; d].
Proof. apply (events_since_app [a; b; c; d] t). Qed.

Lemma start_failure_after_silent {A} (m : M A) (f : A -> M unit) st t0 e :
  silent m ->
  trace st = t0 ->
  (forall a st1, trace st1 = t0 -> start_failure_outcome t0 e (f a st1)) ->
  start_failure_outcome t0 e (bind m f st).
Proof.
  intros Hm Ht Hf. unfold bind.
  specialize (Hm st). destruct (m st) as [st1 [e0 | a]]; simpl in Hm.
  - unfold start_failure_outcome. simpl.
    rewrite Hm, Ht, events_since_0. discriminate.
  - apply Hf. congruence.
Qed.

Section Opening.

Variable N : Native.
Variable S : Setup.

Ltac split_matches :=
  repeat match goal with
         | |- context [match ?x with _ => _ end] =>
             match x with
             | context [match _ with _ => _ end] => fail 1
             | _ => destruct x; simpl
             end
         end.

Ltac since :=
  first [ rewrite events_since_4 | rewrite events_since_3
        | rewrite events_since_2 | rewrite events_since_1
        | rewrite events_since_0 ].

Lemma enter_and_open_start_failure a s0 e :
  start_failure_outcome (trace s0) e (Col.enter_and_open N S a s0).
Proof.
  unfold start_failure_outcome.
  unfold Col.enter_and_open, Col.open_session, Col.guard_driver_mode,
    Col.on_session, Col.none_has_no, try_except_IOError, bind, assign,
    invoke, get_self, when, raise, ret.
  simpl.
  destruct (env_enter N (trace s0)) as [e0 | []]; simpl.
  { since. discriminate. }
  destruct (String.eqb (mode (self s0)) "r"); simpl.
  - destruct (start N _ Session _ _) as [e1 | []]; simpl.
    + destruct (is_IOError e1) eqn:Hio; simpl; since; simpl;
        intros [= <-]; rewrite Hio; repeat split.
    + split_matches; since; simpl; discriminate.
  - destruct (mode_in_aw (mode (self s0))); simpl.
    + destruct (start N _ WritingSession _ _) as [e1 | []]; simpl.
      * destruct (is_IOError e1) eqn:Hio; simpl; since; simpl;
          intros [= <-]; rewrite Hio; repeat split.
      * split_matches; since; simpl; discriminate.
    + split_matches; since; simpl; discriminate.
Qed.

Lemma start_failure_of_init a st e :
  start_failure_outcome (trace st) e (Col.__init__ N S a st).
Proof.
  unfold Col.__init__.
  apply start_failure_after_silent;
    [apply check_arguments_silent | reflexivity | intros _ s Hs].
  do 11 (apply start_failure_after_silent;
           [apply silent_assign | exact Hs | clear s Hs; intros _ s Hs]).
  apply start_failure_after_silent;
    [apply choose_name_silent | exact Hs | clear s Hs; intros _ s Hs].
  apply start_failure_after_silent;
    [apply silent_assign | exact Hs | clear s Hs; intros _ s Hs].
  apply start_failure_after_silent;
    [apply silent_when, write_mode_setup_silent | exact Hs
    | clear s Hs; intros _ s Hs].
  rewrite <- Hs. apply enter_and_open_start_failure.
Qed.

End Opening.

(** C2 (as amended): when [start] raises an [IOError] in a constructor call,
    the handle is left closed and the same exception reaches the caller.  The
    runtime context has been entered once and is not exited by the
    constructor; the next [close] of the handle exits it, and stops no
    session. *)
Theorem init_start_failure (N : Native) (S : Setup) (a : InitArgs)
    (st : State) (e : exn) :
  let out := Col.__init__ N S a st in
  let new := events_since (trace st) (trace (fst out)) in
  failed_start new = Some e ->
  is_IOError e = true ->
  snd out = inl e /\
  closed (self (fst out)) = true /\
  count is_env_enter new = 1%nat /\
  count is_env_exit new = 0%nat /\
  Col.close N (fst out) =
    ({| self := self (fst out);
        trace := event_of call_env_exit (env_exit N (trace (fst out)))
                 :: trace (fst out) |},
     env_exit N (trace (fst out))).
Proof.
  intros out new Hfail Hio.
  destruct (start_failure_of_init N S a st e Hfail)
    as (Hr & Hc & He & Hin & Hout).
  rewrite Hio in Hc.
  repeat split; try assumption.
  apply close_without_session; assumption.
Qed.

Lemma init_start_failure_witness :
  let N := Sample.native (inl Sample.io_error) (fun _ => 0) in
  let out := Col.__init__ N Sample.setup (default_args "missing.shp")
               Sample.fresh in
  snd out = inl Sample.io_error /\
  closed (self (fst out)) = true /\
  count is_env_exit (trace (fst (Col.close N (fst out)))) = 1%nat.
Proof.
  intros N out.
  destruct (init_start_failure N Sample.setup (default_args "missing.shp")
              Sample.fresh Sample.io_error eq_refl eq_refl)
    as (Hr & Hc & _ & _ & Hclose).
  split; [exact Hr | split; [exact Hc | ]].
  unfold out. rewrite Hclose. reflexivity.
Defined.

(** C2 (counterexample): when [start] raises an exception that is not an
    [IOError], the session object stays on the handle, which is not closed;
    and when [start] raises an [IOError], the constructor returns to its
    caller with the runtime context entered and not exited. *)
Lemma failed_open_keeps_session_or_environment :
  (let out := Col.__init__ (Sample.native (inl Sample.null_layer) (fun _ => 0))
                Sample.setup (default_args "a.shp") Sample.fresh in
   failed_start (trace (fst out)) = Some Sample.null_layer /\
   closed (self (fst out)) = false) /\
  (let out := Col.__init__ (Sample.native (inl Sample.io_error) (fun _ => 0))
                Sample.setup (default_args "missing.shp") Sample.fresh in
   failed_start (trace (fst out)) = Some Sample.io_error /\
   closed (self (fst out)) = true /\
   count is_env_enter (trace (fst out)) = 1%nat /\
   count is_env_exit (trace (fst out)) = 0%nat).
Proof. repeat split. Qed.

(** ** Coordinate reference system in write mode *)

Lemma bind_success {A B} (m : M A) (f : A -> M B) st st' b :
  bind m f st = (st', inr b) ->
  exists st1 a, m st = (st1, inr a) /\ f a st1 = (st', inr b).
Proof.
  unfold bind. destruct (m st) as [st1 [e | a]]; [discriminate | eauto].
Qed.

Lemma assign_run f st st' u :
  assign f st = (st', inr u) ->
  st' = {| self := f (self st); trace := trace st |}.
Proof. unfold assign. intros [= <-]. reflexivity. Qed.

Lemma keeps_run {A X} (f : Collection -> X) (m : M A) st st' r :
  keeps f m -> m st = (st', r) -> f (self st') = f (self st).
Proof. intros K H. specialize (K st). rewrite H in K. exact K. Qed.

Lemma keeps_ret {A X} (f : Collection -> X) (a : A) : keeps f (ret a).
Proof. intro st; reflexivity. Qed.

Lemma keeps_raise {A X} (f : Collection -> X) t msg arg :
  keeps f (@raise A t msg arg).
Proof. intro st; reflexivity. Qed.

Lemma keeps_get_self {X} (f : Collection -> X) : keeps f get_self.
Proof. intro st; reflexivity. Qed.

Lemma keeps_lift {A X} (f : Collection -> X) (r : result A) : keeps f (lift r).
Proof. intro st; reflexivity. Qed.

Lemma keeps_invoke {A X} (f : Collection -> X) c (o : Trace -> result A) :
  keeps f (invoke c o).
Proof. intro st; reflexivity. Qed.

Lemma keeps_assign {X} (f : Collection -> X) g :
  (forall c, f (g c) = f c) -> keeps f (assign g).
Proof. intros H st. simpl. apply H. Qed.

Lemma keeps_bind {A B X} (f : Collection -> X) (m : M A) (k : A -> M B) :
  keeps f m -> (forall a, keeps f (k a)) -> keeps f (bind m k).
Proof.
  intros Hm Hk st. unfold bind.
  specialize (Hm st). destruct (m st) as [st1 [e | a]]; simpl in *.
  - exact Hm.
  - rewrite (Hk a st1). exact Hm.
Qed.

Lemma keeps_when {X} (f : Collection -> X) c (m : M unit) :
  keeps f m -> keeps f (when c m).
Proof. intros Hm. destruct c; simpl; [exact Hm | apply keeps_ret]. Qed.

Lemma keeps_if {A X} (f : Collection -> X) (c : bool) (m1 m2 : M A) :
  keeps f m1 -> keeps f m2 -> keeps f (if c then m1 else m2).
Proof. destruct c; auto. Qed.

Lemma keeps_try {X} (f : Collection -> X) (body handler : M unit) :
  keeps f body -> keeps f handler -> keeps f (try_except_IOError body handler).
Proof.
  intros Hb Hh st. unfold try_except_IOError.
  specialize (Hb st). destruct (body st) as [st1 [e | a]]; simpl in *.
  - destruct (is_IOError e); simpl; [ | exact Hb ].
    specialize (Hh st1).
    destruct (handler st1) as [st2 [e' | u]]; simpl in *; congruence.
  - exact Hb.
Qed.

(** Proves [keeps f m] for code built from the blocks above; an assignment
    is accepted when it sets another attribute. *)
Ltac keeping :=
  repeat first
    [ apply keeps_bind; [ | intros ? ]
    | apply keeps_when
    | apply keeps_try
    | apply keeps_if
    | apply keeps_ret
    | apply keeps_raise
    | apply keeps_get_self
    | apply keeps_lift
    | apply keeps_invoke
    | apply keeps_assign; intros ?; reflexivity
    | match goal with
      | |- keeps _ (match ?x with _ => _ end) => destruct x
      end ].

Section Crs.

Variable N : Native.
Variable S : Setup.

Lemma choose_name_keeps {X} (f : Collection -> X) a :
  (forall v c, f (set_name v c) = f c) -> keeps f (Col.choose_name S a).
Proof.
  intros Hf. unfold Col.choose_name.
  repeat first
    [ apply keeps_bind; [ | intros ? ]
    | apply keeps_when
    | apply keeps_if
    | apply keeps_raise
    | apply keeps_assign; intros ?; apply Hf ].
Qed.

Lemma enter_and_open_keeps_crs a :
  keeps _crs (Col.enter_and_open N S a) /\
  keeps _crs_wkt (Col.enter_and_open N S a).
Proof.
  unfold Col.enter_and_open, Col.open_session, Col.guard_driver_mode,
    Col.on_session, Col.none_has_no.
  split; keeping.
Qed.

(** With a truthy [crs_wkt], the write-mode block stores it and does not
    look at [crs]. *)
Lemma write_mode_setup_wkt a st st' :
  truthy (arg_crs_wkt a) = true ->
  Col.write_mode_setup S a st = (st', inr tt) ->
  _crs_wkt (self st') = arg_crs_wkt a /\ _crs (self st') = _crs (self st).
Proof.
  intros Hw H. unfold Col.write_mode_setup in H.
  apply bind_success in H. destruct H as (s1 & [] & H1 & H).
  apply bind_success in H. destruct H as (s2 & [] & H2 & H).
  apply bind_success in H. destruct H as (s3 & [] & H3 & H).
  apply bind_success in H. destruct H as (s4 & [] & H4 & H).
  unfold Col.negotiate_crs in H. rewrite Hw in H.
  apply assign_run in H. apply assign_run in H2. apply assign_run in H4.
  assert (K1 : _crs (self s1) = _crs (self st)).
  { revert H1. apply keeps_run. keeping. }
  assert (K3 : _crs (self s3) = _crs (self s2)).
  { revert H3. apply keeps_run. keeping. }
  subst st' s4 s2. simpl. simpl in K3. split; [reflexivity | congruence].
Qed.

Lemma check_arguments_accepts_crs a st st' :
  Col.check_arguments S a st = (st', inr tt) ->
  crs_accepted (arg_crs a) = true.
Proof.
  unfold Col.check_arguments, crs_accepted. intros H.
  do 4 (apply bind_success in H; destruct H as (? & [] & _ & H)).
  apply bind_success in H. destruct H as (s & [] & H & _).
  destruct (truthy (arg_crs a) && negb (is_dict (arg_crs a) || is_str (arg_crs a)));
    [discriminate | reflexivity].
Qed.

(** Two constructor calls that differ in an accepted [crs] only behave
    alike once [crs_wkt] is truthy. *)
Lemma init_ignores_crs a c st :
  truthy (arg_crs_wkt a) = true ->
  crs_accepted (arg_crs a) = true ->
  crs_accepted c = true ->
  Col.__init__ N S (with_crs c a) st = Col.__init__ N S a st.
Proof.
  unfold crs_accepted. intros Hw Ha Hc.
  apply negb_true_iff in Ha. apply negb_true_iff in Hc.
  unfold Col.__init__, Col.check_arguments, Col.write_mode_setup,
    Col.negotiate_crs.
  cbn [with_crs arg_path arg_mode arg_driver arg_schema arg_crs arg_encoding
       arg_layer arg_vsi arg_archive arg_enabled_drivers arg_crs_wkt
       arg_kwargs].
  rewrite Hw, Ha, Hc. reflexivity.
Qed.

End Crs.

(** C7: in a constructor call in write mode that is given a non-empty
    [crs_wkt] string together with a [crs], the well-known text is what the
    handle stores and what the [crs_wkt] property reports afterwards; no
    [crs] is stored, and the call behaves as it does with any other accepted
    [crs]. *)
Theorem wkt_takes_precedence (N : Native) (S : Setup) (a : InitArgs)
    (st st' : State) (w : string) :
  arg_mode a = VStr "w" ->
  arg_crs_wkt a = VStr w ->
  w <> "" ->
  Col.__init__ N S a st = (st', inr tt) ->
  _crs_wkt (self st') = VStr w /\
  _crs (self st') = VNone /\
  Col.crs_wkt N st' = (st', inr (VStr w)) /\
  (forall c, crs_accepted c = true ->
     Col.__init__ N S (with_crs c a) st = (st', inr tt)).
Proof.
  intros Hmode Hwkt Hne Hinit.
  assert (Hw : truthy (arg_crs_wkt a) = true).
  { rewrite Hwkt. simpl. apply negb_true_iff, String.eqb_neq, Hne. }
  assert (Hfields : _crs_wkt (self st') = VStr w /\ _crs (self st') = VNone).
  { pose proof Hinit as H. unfold Col.__init__ in H.
    apply bind_success in H. destruct H as (s0 & [] & _ & H).
    do 11 (apply bind_success in H;
           let s := fresh "s" in let E := fresh "E" in
           destruct H as (s & [] & E & H); apply assign_run in E; subst s).
    apply bind_success in H. destruct H as (s1 & [] & H1 & H).
    apply bind_success in H. destruct H as (s2 & [] & H2 & H).
    apply assign_run in H2. subst s2.
    apply bind_success in H. destruct H as (s3 & [] & H3 & H).
    rewrite Hmode in H3. simpl in H3.
    destruct (write_mode_setup_wkt S a _ _ Hw H3) as (K1 & K2).
    simpl in K2.
    pose proof (keeps_run _crs _ _ _ _
                  (choose_name_keeps S _crs a (fun _ _ => eq_refl)) H1) as K3.
    simpl in K3.
    destruct (enter_and_open_keeps_crs N S a) as (Kc & Kw).
    rewrite (keeps_run _ _ _ _ _ Kc H), (keeps_run _ _ _ _ _ Kw H).
    rewrite K1, K2, K3, Hwkt. split; reflexivity. }
  destruct Hfields as (F1 & F2).
  repeat split; try assumption.
  - unfold Col.crs_wkt, bind, get_self, when, ret. rewrite F1. simpl.
    rewrite F1. reflexivity.
  - intros c Hc. rewrite <- Hinit. apply init_ignores_crs; try assumption.
    unfold Col.__init__ in Hinit.
    apply bind_success in Hinit. destruct Hinit as (s0 & [] & H0 & _).
    apply (check_arguments_accepts_crs S a st s0 H0).
Qed.

Lemma wkt_takes_precedence_witness :
  let N := Sample.native (inr tt) (fun _ => 0) in
  let a := with_crs (VStr "+init=epsg:4326")
             (with_crs_wkt (VStr "GEOGCS") Sample.geojson_writer_args) in
  let opened := fst (Col.__init__ N Sample.setup a Sample.fresh) in
  Col.crs_wkt N opened = (opened, inr (VStr "GEOGCS")).
Proof.
  intros N a opened.
  assert (E : Col.__init__ N Sample.setup a Sample.fresh = (opened, inr tt))
    by (vm_compute; reflexivity).
  destruct (wkt_takes_precedence N Sample.setup a Sample.fresh opened
              "GEOGCS" eq_refl eq_refl ltac:(discriminate) E)
    as (_ & _ & H & _).
  exact H.
Defined.

(** An empty [crs_wkt] string is falsy and does not take precedence: the
    [crs] is then the one stored. *)
Lemma empty_wkt_gives_way :
  let N := Sample.native (inr tt) (fun _ => 0) in
  let a := with_crs (VStr "+init=epsg:4326")
             (with_crs_wkt (VStr "") Sample.geojson_writer_args) in
  _crs (self (fst (Col.__init__ N Sample.setup a Sample.fresh)))
  = VStr "+init=epsg:4326".
Proof. reflexivity. Qed.

(** ** Buffers mapped to virtual files *)

Lemma bytes_startswith_prefix p : forall s,
  bytes_startswith p s = true -> exists r, s = (p ++ r)%list.
Proof.
  induction p as [ | a p IH]; intros s; simpl.
  - exists s. reflexivity.
  - destruct s as [ | b s]; [discriminate | ].
    intros H. apply andb_true_iff in H. destruct H as [Hab Hp].
    apply Byte.byte_dec_bl in Hab. subst b.
    destruct (IH s Hp) as [r ->]. exists r. reflexivity.
Qed.

Lemma bytes_startswith_self p : bytes_startswith p p = true.
Proof.
  induction p as [ | a p IH]; simpl; [reflexivity | ].
  rewrite IH, (Byte.byte_dec_lb eq_refl). reflexivity.
Qed.

(** [get_filetype] answers "zip" exactly for the buffers whose first four
    bytes are the signature. *)
Lemma get_filetype_zip_signed buf :
  get_filetype buf = if zip_signed buf then "zip" else "".
Proof.
  unfold get_filetype, zip_signed.
  destruct (list_eq_dec byte_eq_dec (firstn 4 buf) zip_signature) as [E | NE].
  - rewrite E, bytes_startswith_self. reflexivity.
  - destruct (bytes_startswith zip_signature (firstn 4 buf)) eqn:Hs;
      [ | reflexivity ].
    exfalso. apply NE.
    apply bytes_startswith_prefix in Hs. destruct Hs as [r Hr].
    assert (Hlen : (List.length (firstn 4 buf) <= 4)%nat)
      by apply firstn_le_length.
    rewrite Hr in Hlen. rewrite length_app in Hlen. simpl in Hlen.
    destruct r; [ | simpl in Hlen; lia ].
    rewrite Hr. apply app_nil_r.
Qed.

Lemma zip_signed_iff buf : zip_signed buf = true <-> has_zip_signature buf.
Proof.
  unfold zip_signed, has_zip_signature.
  destruct (list_eq_dec byte_eq_dec (firstn 4 buf) zip_signature);
    split; intros; try assumption; try reflexivity; try discriminate.
  contradiction.
Qed.

Lemma choose_ext_stated buf kwds :
  BytesCol.choose_ext (get_filetype buf) kwds = stated_ext (zip_signed buf) kwds.
Proof.
  rewrite get_filetype_zip_signed. unfold BytesCol.choose_ext, stated_ext.
  destruct (zip_signed buf); reflexivity.
Qed.

Lemma first_call_of_extension (t : Trace) (ev : Event) (new : Trace) :
  first_call t (new ++ ev :: t)%list = Some (ev_call ev).
Proof.
  unfold first_call.
  replace (new ++ ev :: t)%list with ((new ++ [ev]) ++ t)%list
    by (rewrite <- app_assoc; reflexivity).
  rewrite events_since_app, rev_app_distr. reflexivity.
Qed.

(** Proves [extends m] for code built from native calls and silent blocks. *)
Ltac growing :=
  repeat first
    [ apply extends_invoke
    | apply extends_silent; solve [quiet]
    | apply extends_bind; [ | intros ? ]
    | apply extends_when
    | apply extends_try
    | apply extends_if
    | match goal with
      | |- extends (match ?x with _ => _ end) => destruct x
      end ].

Section VirtualFiles.

Variable N : Native.
Variable S : Setup.

Lemma init_extends a : extends (Col.__init__ N S a).
Proof.
  unfold Col.__init__.
  apply extends_bind; [apply extends_silent, check_arguments_silent | intros _].
  do 11 (apply extends_bind; [apply extends_silent, silent_assign | intros _]).
  apply extends_bind; [apply extends_silent, choose_name_silent | intros _].
  apply extends_bind; [apply extends_silent, silent_assign | intros _].
  apply extends_bind;
    [apply extends_silent, silent_when, write_mode_setup_silent | intros _].
  unfold Col.enter_and_open, Col.open_session, Col.guard_driver_mode,
    Col.on_session, Col.none_has_no.
  growing.
Qed.

Lemma write_mode_setup_keeps_path a :
  keeps path (Col.write_mode_setup S a) /\
  keeps virtual_file (Col.write_mode_setup S a) /\
  keeps bytesbuf (Col.write_mode_setup S a).
Proof.
  unfold Col.write_mode_setup, Col.negotiate_crs.
  repeat split; keeping.
Qed.

Lemma enter_and_open_keeps_path a :
  keeps path (Col.enter_and_open N S a) /\
  keeps virtual_file (Col.enter_and_open N S a) /\
  keeps bytesbuf (Col.enter_and_open N S a).
Proof.
  unfold Col.enter_and_open, Col.open_session, Col.guard_driver_mode,
    Col.on_session, Col.none_has_no.
  repeat split; keeping.
Qed.

Lemma check_arguments_keeps {X} (f : Collection -> X) a :
  keeps f (Col.check_arguments S a).
Proof. unfold Col.check_arguments. keeping. Qed.

(** After a constructor call that returns, [path] is what the path
    resolver made of the [path], [vsi] and [archive] arguments, and the two
    attributes of [BytesCollection] are as they were. *)
Lemma init_path a st st' :
  Col.__init__ N S a st = (st', inr tt) ->
  path (self st') =
    vsi_path S (as_str (arg_path a)) (arg_vsi a) (arg_archive a) /\
  virtual_file (self st') = virtual_file (self st) /\
  bytesbuf (self st') = bytesbuf (self st).
Proof.
  intros H. unfold Col.__init__ in H.
  apply bind_success in H. destruct H as (s0 & [] & H0 & H).
  pose proof (keeps_run virtual_file _ _ _ _
                (check_arguments_keeps virtual_file a) H0) as V0.
  pose proof (keeps_run bytesbuf _ _ _ _
                (check_arguments_keeps bytesbuf a) H0) as B0.
  do 11 (apply bind_success in H;
         let s := fresh "s" in let E := fresh "E" in
         destruct H as (s & [] & E & H); apply assign_run in E; subst s).
  apply bind_success in H. destruct H as (s1 & [] & H1 & H).
  apply bind_success in H. destruct H as (s2 & [] & H2 & H).
  apply assign_run in H2. subst s2.
  apply bind_success in H. destruct H as (s3 & [] & H3 & H).
  destruct (write_mode_setup_keeps_path a) as (Wp & Wv & Wb).
  destruct (enter_and_open_keeps_path a) as (Ep & Ev & Eb).
  pose proof (keeps_run path _ _ _ _ (keeps_when path _ _ Wp) H3) as P3.
  pose proof (keeps_run virtual_file _ _ _ _
                (keeps_when virtual_file _ _ Wv) H3) as V3.
  pose proof (keeps_run bytesbuf _ _ _ _
                (keeps_when bytesbuf _ _ Wb) H3) as B3.
  pose proof (keeps_run path _ _ _ _
                (choose_name_keeps S path a (fun _ _ => eq_refl)) H1) as P1.
  pose proof (keeps_run virtual_file _ _ _ _
                (choose_name_keeps S virtual_file a (fun _ _ => eq_refl)) H1)
    as V1.
  pose proof (keeps_run bytesbuf _ _ _ _
                (choose_name_keeps S bytesbuf a (fun _ _ => eq_refl)) H1)
    as B1.
  rewrite (keeps_run _ _ _ _ _ Ep H), (keeps_run _ _ _ _ _ Ev H),
    (keeps_run _ _ _ _ _ Eb H).
  simpl in *. rewrite P3, V3, B3, P1, V1, B1, V0, B0.
  repeat split.
Qed.

End VirtualFiles.

(** C8: for every byte buffer given to [BytesCollection]: the first native
    call maps the buffer to a virtual file, with the extension ".zip" when
    the first four bytes are the zip signature, else ".json" when the driver
    requested is "GeoJSON", else with no extension; the parent constructor
    then runs on the virtual file with [vsi] "zip" for a zip buffer (and the
    empty string otherwise), so that the path of the opened collection is
    what the path resolver gives for that [vsi]. *)
Theorem bytes_collection_mapping (N : Native) (S : Setup) (buf : list byte)
    (kwds : list (string * value)) (st : State) :
  let zip := zip_signed buf in
  let ext := stated_ext zip kwds in
  let vsi := if zip then "zip" else "" in
  let out := BytesCol.__init__ N S (VBytes buf) kwds st in
  (zip = true <-> has_zip_signature buf) /\
  first_call (trace st) (trace (fst out)) =
    Some (call_buffer_to_virtual_file buf ext) /\
  (forall vf,
     buffer_to_virtual_file N (trace st) buf ext = inr vf ->
     kw_mem "path" kwds || kw_mem "vsi" kwds || kw_mem "encoding" kwds = false ->
     arg_path (BytesCol.bind_parameters vf vsi kwds) = VStr vf /\
     arg_vsi (BytesCol.bind_parameters vf vsi kwds) = VStr vsi /\
     out = Col.__init__ N S (BytesCol.bind_parameters vf vsi kwds)
             {| self := set_virtual_file (VStr vf)
                          (set_bytesbuf (VBytes buf) (self st));
                trace := returned (call_buffer_to_virtual_file buf ext)
                         :: trace st |}) /\
  (snd out = inr tt ->
   exists vf,
     buffer_to_virtual_file N (trace st) buf ext = inr vf /\
     virtual_file (self (fst out)) = VStr vf /\
     bytesbuf (self (fst out)) = VBytes buf /\
     path (self (fst out)) = vsi_path S vf (VStr vsi) (kw_get "archive" kwds)).
Proof.
  intros zip ext vsi out.
  assert (Hout : out =
    match buffer_to_virtual_file N (trace st) buf ext with
    | inl e =>
        ({| self := set_bytesbuf (VBytes buf) (self st);
            trace := event_of (call_buffer_to_virtual_file buf ext)
                       (@inl exn string e) :: trace st |}, inl e)
    | inr vf =>
        let s1 := {| self := set_virtual_file (VStr vf)
                               (set_bytesbuf (VBytes buf) (self st));
                     trace := returned (call_buffer_to_virtual_file buf ext)
                              :: trace st |} in
        if kw_mem "path" kwds || kw_mem "vsi" kwds || kw_mem "encoding" kwds
        then (s1, inl (Exn TypeError
                         "__init__() got multiple values for argument" VNone))
        else Col.__init__ N S (BytesCol.bind_parameters vf vsi kwds) s1
    end).
  { unfold out, BytesCol.__init__. rewrite choose_ext_stated.
    rewrite get_filetype_zip_signed. fold zip ext vsi.
    unfold bind, assign, invoke. simpl.
    destruct (buffer_to_virtual_file N (trace st) buf ext) as [e | vf];
      [reflexivity | ].
    simpl.
    destruct (kw_mem "path" kwds || kw_mem "vsi" kwds || kw_mem "encoding" kwds);
      reflexivity. }
  split; [apply zip_signed_iff | ].
  split; [ | split ].
  - rewrite Hout.
    destruct (buffer_to_virtual_file N (trace st) buf ext) as [e | vf].
    + exact (first_call_of_extension (trace st)
               (event_of (call_buffer_to_virtual_file buf ext)
                  (@inl exn string e)) []).
    + cbv zeta.
      destruct (kw_mem "path" kwds || kw_mem "vsi" kwds ||
                kw_mem "encoding" kwds).
      * exact (first_call_of_extension (trace st)
                 (returned (call_buffer_to_virtual_file buf ext)) []).
      * match goal with
        | |- context [Col.__init__ N S ?a ?s] =>
            destruct (init_extends N S a s) as [new Hnew]
        end.
        rewrite Hnew.
        exact (first_call_of_extension (trace st)
                 (returned (call_buffer_to_virtual_file buf ext)) new).
  - intros vf Hvf Hkw. rewrite Hout, Hvf. cbv zeta. rewrite Hkw.
    repeat split.
  - intros Hok. rewrite Hout in Hok |- *.
    destruct (buffer_to_virtual_file N (trace st) buf ext) as [e | vf];
      [discriminate | ].
    cbv zeta in Hok |- *.
    destruct (kw_mem "path" kwds || kw_mem "vsi" kwds ||
              kw_mem "encoding" kwds); [discriminate | ].
    exists vf. split; [reflexivity | ].
    match goal with
    | |- context [Col.__init__ N S ?a ?s] =>
        destruct (Col.__init__ N S a s) as [st' r] eqn:Hrun
    end.
    simpl in Hok. subst r.
    destruct (init_path N S _ _ _ Hrun) as (Hp & Hv & Hb).
    simpl. rewrite Hp, Hv, Hb. repeat split.
Qed.

Lemma bytes_collection_mapping_witness :
  let N := Sample.native (inr tt) (fun _ => 0) in
  let buf := [x50; x4b; x03; x04; x14; x00] in
  let out := BytesCol.__init__ N Sample.setup (VBytes buf) [] Sample.fresh in
  virtual_file (self (fst out)) = VStr "/vsimem/buffer.zip" /\
  path (self (fst out)) = "/vsizip//vsimem/buffer.zip".
Proof.
  intros N buf out.
  destruct (bytes_collection_mapping N Sample.setup buf [] Sample.fresh)
    as (_ & _ & _ & H).
  destruct (H eq_refl) as (vf & Hvf & Hv & _ & Hp).
  injection Hvf as <-.
  split; [exact Hv | exact Hp].
Defined.

(** A buffer that is not a zip archive, requested with the GeoJSON driver:
    the virtual file gets the extension ".json" and no [vsi]. *)
Lemma geojson_buffer_gets_json_extension :
  let N := Sample.native (inr tt) (fun _ => 0) in
  let buf := [x7b; x7d] in
  let out := BytesCol.__init__ N Sample.setup (VBytes buf)
               [("driver", VStr "GeoJSON")] Sample.fresh in
  virtual_file (self (fst out)) = VStr "/vsimem/buffer.json" /\
  path (self (fst out)) = "/vsimem/buffer.json".
Proof. split; reflexivity. Qed.

(** * Further properties of the methods *)

(** ** Iterators *)

(** X1: when [filter], [items] or [keys] returns an iterator, the collection
    is open in read mode, at most three positional arguments were given and
    the bounding box and the mask are not both set; the iterator carries the
    start, stop and step of the slice of the arguments (all [None] without
    arguments) and the two filters, it is the one stored on the handle, and
    its construction is the only native call made. *)
Theorem iterate_returns (N : Native) (k : IteratorKind) (args : list value)
    (kwds : list (string * value)) (st st' : State) (it : IteratorObj) :
  Col.iterate N k args kwds st = (st', inr it) ->
  closed (self st) = false /\
  mode (self st) = "r" /\
  (List.length args <= 3)%nat /\
  truthy (kw_get "bbox" kwds) && truthy (kw_get "mask" kwds) = false /\
  it_kind it = k /\
  it_bbox it = kw_get "bbox" kwds /\
  it_mask it = kw_get "mask" kwds /\
  match args with
  | [] => (it_start it, it_stop it, it_step it) = (VNone, VNone, VNone)
  | _ => slice args = inr (it_start it, it_stop it, it_step it)
  end /\
  self st' = set_iterator (Some it) (self st) /\
  trace st' = returned (call_new_iterator it (self st)) :: trace st.
Proof.
  unfold Col.iterate, bind at 1, get_self at 1.
  destruct (closed (self st)) eqn:Hc.
  { unfold bind, raise. discriminate. }
  unfold bind at 1, when.
  destruct (String.eqb (mode (self st)) "r") eqn:Hm; simpl;
    [ | discriminate ].
  apply String.eqb_eq in Hm.
  assert (Hrest : forall (start stop step : value),
    ((let bbox := kw_get "bbox" kwds in
      let mask := kw_get "mask" kwds in
      when (truthy bbox && truthy mask)
        (raise ValueError "mask and bbox can not be set together" VNone) ;;
      let it0 := {| it_kind := k; it_start := start; it_stop := stop;
                    it_step := step; it_bbox := bbox; it_mask := mask |} in
      c' <- get_self ;;
      invoke (call_new_iterator it0 c') (fun h => new_iterator N h it0 c') ;;
      assign (set_iterator (Some it0)) ;;
      ret it0) st = (st', inr it)) ->
    truthy (kw_get "bbox" kwds) && truthy (kw_get "mask" kwds) = false /\
    it = {| it_kind := k; it_start := start; it_stop := stop;
            it_step := step; it_bbox := kw_get "bbox" kwds;
            it_mask := kw_get "mask" kwds |} /\
    self st' = set_iterator (Some it) (self st) /\
    trace st' = returned (call_new_iterator it (self st)) :: trace st).
  { intros start stop step. cbv zeta.
    unfold bind, when, get_self, invoke, assign, ret, raise.
    destruct (truthy (kw_get "bbox" kwds) && truthy (kw_get "mask" kwds));
      [discriminate | ].
    destruct (new_iterator N (trace st) _ (self st)) as [e | []];
      [discriminate | ].
    intros [= <- <-]. repeat split. }
  destruct args as [ | a0 [ | a1 [ | a2 [ | a3 rest]]]]; unfold bind at 1;
    simpl; intros H;
    first [ discriminate H
          | apply Hrest in H; destruct H as (Hb & -> & Hs & Ht); simpl;
            repeat split; try assumption; try reflexivity; lia ].
Qed.

Lemma iterate_returns_witness :
  let N := Sample.native (inr tt) (fun _ => 0) in
  let st := reader_with_cached_length 0 in
  exists it st',
    Col.filter N [VInt 5] [("bbox", VTuple [VInt 0; VInt 0; VInt 1; VInt 1])] st
      = (st', inr it) /\
    (it_start it, it_stop it, it_step it) = (VNone, VInt 5, VNone) /\
    iterator (self st') = Some it.
Proof.
  intros N st.
  destruct (Col.filter N [VInt 5]
              [("bbox", VTuple [VInt 0; VInt 0; VInt 1; VInt 1])] st)
    as [st' [e | it]] eqn:Hrun; [discriminate Hrun | ].
  exists it, st'.
  destruct (iterate_returns N Iterator [VInt 5]
              [("bbox", VTuple [VInt 0; VInt 0; VInt 1; VInt 1])] st st' it Hrun)
    as (_ & _ & _ & _ & _ & _ & _ & Hs & Hself & _).
  split; [reflexivity | ]. split.
  - simpl in Hs. injection Hs as <- <- <-. reflexivity.
  - rewrite Hself. reflexivity.
Defined.

(** X2: when [filter], [items] or [keys] raises, the handle is as it was, so
    the iterator stored before stays; at most one native call was made, and
    then it is the construction of the iterator that raised that very
    exception. *)
Theorem iterate_raises (N : Native) (k : IteratorKind) (args : list value)
    (kwds : list (string * value)) (st st' : State) (e : exn) :
  Col.iterate N k args kwds st = (st', inl e) ->
  self st' = self st /\
  (trace st' = trace st \/
   exists it,
     trace st' = {| ev_call := call_new_iterator it (self st);
                    ev_raised := Some e |} :: trace st).
Proof.
  unfold Col.iterate.
  destruct (slice_of_arguments_is_pure args) as [r ->].
  unfold bind, get_self, when, lift, raise, ret, invoke, assign.
  destruct (closed (self st)).
  { intros [= <- _]. split; [reflexivity | left; reflexivity]. }
  destruct (String.eqb (mode (self st)) "r"); simpl.
  2:{ intros [= <- _]. split; [reflexivity | left; reflexivity]. }
  destruct r as [e0 | [[a b] c]].
  { intros [= <- _]. split; [reflexivity | left; reflexivity]. }
  destruct (truthy (kw_get "bbox" kwds) && truthy (kw_get "mask" kwds)).
  { intros [= <- _]. split; [reflexivity | left; reflexivity]. }
  destruct (new_iterator N (trace st) _ (self st)) as [e0 | []] eqn:Hn;
    [ | discriminate ].
  intros [= <- <-]. split; [reflexivity | right]. eexists. reflexivity.
Qed.

Lemma iterate_raises_witness :
  let N := Sample.native (inr tt) (fun _ => 0) in
  let st := reader_with_cached_length 0 in
  self (fst (Col.keys N [VInt 0; VInt 9; VInt 2; VInt 1] [] st)) = self st.
Proof.
  intros N st.
  destruct (Col.keys N [VInt 0; VInt 9; VInt 2; VInt 1] [] st)
    as [st' [e | it]] eqn:Hrun; [ | discriminate Hrun ].
  exact (proj1 (iterate_raises N KeysIterator
                  [VInt 0; VInt 9; VInt 2; VInt 1] [] st st' e Hrun)).
Defined.

(** ** Closing, in order *)

Lemma events_since_5 (t : Trace) a b c d e :
  events_since t (a :: b :: c :: d :: e :: t) = [a; b; c; d; e].
Proof. apply (events_since_app [a; b; c; d; e] t). Qed.

(** X3: a [close] of an open collection that returns releases in the reverse
    order of acquisition: in append and write mode the buffer is flushed
    first ([sync], then the length and the extent are read), then the session
    is stopped, and the runtime context is exited last; no other native call
    is made, and the handle is left closed without an iterator. *)
Theorem close_releases_in_order (N : Native) (st st' : State) :
  closed (self st) = false ->
  env (self st) = Some tt ->
  Col.close N st = (st', inr tt) ->
  events_since (trace st) (trace st') =
    (returned call_env_exit :: returned call_stop ::
     (if mode_in_aw (mode (self st)) then flush_calls (self st) else []))%list /\
  closed (self st') = true /\
  iterator (self st') = None.
Proof.
  intros Hopen Henv. unfold closed in Hopen.
  destruct (session (self st)) as [k | ] eqn:Hs; [ | discriminate ].
  unfold Col.close, Col.flush, bind, get_self, when, invoke, assign, ret,
    flush_calls, returned.
  rewrite Hs. simpl.
  destruct (mode_in_aw (mode (self st))); simpl.
  - rewrite Hs. simpl.
    destruct (sync N (trace st) (self st)) as [e | []]; simpl;
      [discriminate | ].
    destruct (get_length N _) as [e | n]; simpl; [discriminate | ].
    destruct (get_extent N _) as [e | b]; simpl; [discriminate | ].
    destruct (stop N _) as [e | []]; simpl; [discriminate | ].
    rewrite Henv. simpl.
    destruct (env_exit N _) as [e | []]; simpl; [discriminate | ].
    intros [= <-]. simpl. rewrite events_since_5. repeat split.
  - destruct (stop N _) as [e | []]; simpl; [discriminate | ].
    rewrite Henv. simpl.
    destruct (env_exit N _) as [e | []]; simpl; [discriminate | ].
    intros [= <-]. simpl. rewrite events_since_2. repeat split.
Qed.

Lemma close_releases_in_order_witness :
  let N := Sample.native (inr tt) (fun _ => 1) in
  let opened := fst (Col.__init__ N Sample.setup Sample.geojson_writer_args
                       Sample.fresh) in
  map ev_call (events_since (trace opened) (trace (fst (Col.close N opened))))
  = [call_env_exit; call_stop; call_get_extent; call_get_length;
     call_sync (self opened)].
Proof.
  intros N opened.
  assert (Hopen : closed (self opened) = false) by (vm_compute; reflexivity).
  assert (Henv : env (self opened) = Some tt) by (vm_compute; reflexivity).
  assert (Hrun : Col.close N opened = (fst (Col.close N opened), inr tt))
    by (vm_compute; reflexivity).
  rewrite (proj1 (close_releases_in_order N opened _ Hopen Henv Hrun)).
  vm_compute. reflexivity.
Defined.



(** ** Closing a buffer-backed collection *)

Ltac case_matches :=
  repeat match goal with
         | |- context [match ?x with _ => _ end] =>
             match x with
             | context [match _ with _ => _ end] => fail 1
             | _ => destruct x; simpl
             end
         end.

(** [Collection.close] never removes a virtual file and leaves the two
    attributes of [BytesCollection] alone. *)
Lemma close_leaves_virtual_file (N : Native) st :
  count is_remove_virtual_file (trace (fst (Col.close N st))) =
    count is_remove_virtual_file (trace st) /\
  virtual_file (self (fst (Col.close N st))) = virtual_file (self st) /\
  bytesbuf (self (fst (Col.close N st))) = bytesbuf (self st).
Proof.
  unfold Col.close, Col.flush, bind, get_self, when, invoke, assign, ret.
  case_matches; repeat split.
Qed.

(** X5: a [BytesCollection.close] that returns on a handle with a mapped
    virtual file removes that file as its last native call and drops both the
    path and the buffer; the next [close] removes nothing. *)
Theorem bytes_close_removes_once (N : Native) (st st' : State) (vf : string) :
  virtual_file (self st) = VStr vf ->
  vf <> "" ->
  BytesCol.close N st = (st', inr tt) ->
  (exists older,
     trace st' = returned (call_remove_virtual_file (VStr vf)) :: older /\
     count is_remove_virtual_file older =
       count is_remove_virtual_file (trace st)) /\
  virtual_file (self st') = VNone /\
  bytesbuf (self st') = VNone /\
  count is_remove_virtual_file (trace (fst (BytesCol.close N st'))) =
    count is_remove_virtual_file (trace st').
Proof.
  intros Hvf Hne. unfold BytesCol.close.
  destruct (close_leaves_virtual_file N st) as (Hcount & Hkeep & _).
  unfold bind at 1.
  destruct (Col.close N st) as [s1 [e | []]]; [discriminate | ].
  simpl in Hcount, Hkeep.
  unfold bind, get_self, when, invoke, assign, ret.
  rewrite Hkeep, Hvf. simpl.
  replace (String.eqb vf "") with false
    by (symmetry; apply String.eqb_neq, Hne).
  simpl.
  destruct (remove_virtual_file N (trace s1) (VStr vf)) as [e | []];
    [discriminate | ].
  intros [= <-]. simpl. split; [ | split; [ | split ] ]; try reflexivity.
  - eexists. split; [reflexivity | exact Hcount].
  - match goal with
    | |- context [Col.close N ?s] =>
        destruct (close_leaves_virtual_file N s) as (Hc2 & Hk2 & _);
        destruct (Col.close N s) as [s2 [e | []]]
    end; simpl in *.
    + exact Hc2.
    + rewrite Hk2. simpl. exact Hc2.
Qed.

Lemma bytes_close_removes_once_witness :
  let N := Sample.native (inr tt) (fun _ => 0) in
  let opened := fst (BytesCol.__init__ N Sample.setup
                       (VBytes [x7b; x7d]) [("driver", VStr "GeoJSON")]
                       Sample.fresh) in
  let once := fst (BytesCol.close N opened) in
  let twice := fst (BytesCol.close N once) in
  virtual_file (self once) = VNone /\
  count is_remove_virtual_file (trace twice) = 1%nat.
Proof.
  intros N opened once twice.
  assert (Hvf : virtual_file (self opened) = VStr "/vsimem/buffer.json")
    by (vm_compute; reflexivity).
  assert (Hrun : BytesCol.close N opened = (once, inr tt))
    by (vm_compute; reflexivity).
  destruct (bytes_close_removes_once N opened once "/vsimem/buffer.json"
              Hvf ltac:(discriminate) Hrun) as (_ & Hv & _ & Hcount).
  split; [exact Hv | ].
  unfold twice. rewrite Hcount. vm_compute. reflexivity.
Defined.

(** ** Memoised metadata *)

Section Memo.

Variable N : Native.

(** X6: the metadata accessors are memoised.  An access to [crs_wkt] that
    returns leaves a state in which every further access returns the same
    value with no native call; the same holds for [driver] and [schema] once
    the value returned is truthy, and for [crs] and [bounds] once it is not
    [None]. *)
Theorem accessors_memoised (st st1 : State) (v : value) :
  (Col.crs_wkt N st = (st1, inr v) -> Col.crs_wkt N st1 = (st1, inr v)) /\
  (Col.driver N st = (st1, inr v) -> truthy v = true ->
   Col.driver N st1 = (st1, inr v)) /\
  (Col.schema N st = (st1, inr v) -> truthy v = true ->
   Col.schema N st1 = (st1, inr v)) /\
  (Col.crs N st = (st1, inr v) -> is_none v = false ->
   Col.crs N st1 = (st1, inr v)) /\
  (Col.bounds N st = (st1, inr v) -> is_none v = false ->
   Col.bounds N st1 = (st1, inr v)).
Proof.
  repeat split.
  - unfold Col.crs_wkt, bind, get_self, when, invoke, assign, ret.
    destruct (is_none (_crs_wkt (self st)) && is_some (session (self st)))
      eqn:Hc.
    + destruct (get_crs_wkt N (trace st)) as [e | w]; simpl;
        [discriminate | ].
      intros [= <- <-]. reflexivity.
    + simpl. intros [= <- <-]. rewrite Hc. reflexivity.
  - unfold Col.driver, bind, get_self, when, invoke, assign, ret.
    destruct (negb (truthy (_driver (self st))) && mode_in_ar (mode (self st))
              && is_some (session (self st))) eqn:Hc.
    + destruct (get_driver N (trace st)) as [e | d]; simpl;
        [discriminate | ].
      intros [= <- <-] Ht. simpl. simpl in Ht. rewrite Ht. reflexivity.
    + simpl. intros [= <- <-] Ht. rewrite Ht. reflexivity.
  - unfold Col.schema, bind, get_self, when, invoke, assign, ret.
    destruct (negb (truthy (_schema (self st))) && mode_in_ar (mode (self st))
              && is_some (session (self st))) eqn:Hc.
    + destruct (get_schema N (trace st)) as [e | d]; simpl;
        [discriminate | ].
      intros [= <- <-] Ht. simpl. rewrite Ht. reflexivity.
    + simpl. intros [= <- <-] Ht. rewrite Ht. reflexivity.
  - unfold Col.crs, bind, get_self, when, invoke, assign, ret.
    destruct (is_none (_crs (self st)) && is_some (session (self st))) eqn:Hc.
    + destruct (get_crs N (trace st)) as [e | d]; simpl; [discriminate | ].
      intros [= <- <-] Ht. simpl. rewrite Ht. reflexivity.
    + simpl. intros [= <- <-] Ht. rewrite Ht. reflexivity.
  - unfold Col.bounds, bind, get_self, when, invoke, assign, ret.
    destruct (is_none (_bounds (self st)) && is_some (session (self st)))
      eqn:Hc.
    + destruct (get_extent N (trace st)) as [e | d]; simpl; [discriminate | ].
      intros [= <- <-] Ht. simpl. rewrite Ht. reflexivity.
    + simpl. intros [= <- <-] Ht. rewrite Ht. reflexivity.
Qed.

End Memo.

Lemma accessors_memoised_witness :
  let N := Sample.native (inr tt) (fun _ => 0) in
  let st := reader_with_cached_length 0 in
  let st1 := fst (Col.driver N st) in
  Col.driver N st1 = (st1, inr (VStr "GeoJSON")) /\
  List.length (trace st1) = 1%nat.
Proof.
  intros N st st1.
  destruct (accessors_memoised N st st1 (VStr "GeoJSON"))
    as (_ & H & _).
  split; [apply H; reflexivity | reflexivity].
Defined.

(** ** Length after a write *)

(** X7: after a [writerecords] that returns, the cached length is what the
    session reported right after the batch was written, the cached extent is
    refreshed as well, and as long as that length is positive [len] returns
    it without asking the session again. *)
Theorem len_after_write (N : Native) (records : list value)
    (st st1 : State) :
  Col.writerecords N records st = (st1, inr tt) ->
  let written := returned (call_writerecs records (self st)) :: trace st in
  get_length N written = inr (_len (self st1)) /\
  get_extent N (returned call_get_length :: written) =
    inr (_bounds (self st1)) /\
  (0 < _len (self st1) -> Col.__len__ N st1 = (st1, inr (_len (self st1)))).
Proof.
  unfold Col.writerecords, bind, get_self, when, invoke, assign, ret, raise,
    returned.
  destruct (closed (self st)); simpl; [discriminate | ].
  destruct (mode_in_aw (mode (self st))); simpl; [ | discriminate ].
  destruct (writerecs N (trace st) records (self st)) as [e | []]; simpl;
    [discriminate | ].
  destruct (get_length N _) as [e | n] eqn:Hn; simpl; [discriminate | ].
  destruct (get_extent N _) as [e | b] eqn:Hb; simpl; [discriminate | ].
  intros [= <-]. simpl. repeat split.
  intros Hpos. unfold Col.__len__, bind, get_self, when, ret. simpl.
  replace (n <=? 0) with false by (symmetry; apply Z.leb_gt, Hpos).
  simpl.
  replace (n <? 0) with false by (symmetry; apply Z.ltb_ge; lia).
  reflexivity.
Qed.

Lemma len_after_write_witness :
  let N := Sample.native (inr tt) (fun _ => 3) in
  let st := Sample.shapefile_writer "Point" in
  let st1 := fst (Col.writerecords N [Sample.record_of_type "Point"] st) in
  Col.__len__ N st1 = (st1, inr 3).
Proof.
  intros N st st1.
  assert (Hrun : Col.writerecords N [Sample.record_of_type "Point"] st
                 = (st1, inr tt)) by (vm_compute; reflexivity).
  destruct (len_after_write N _ st st1 Hrun) as (_ & _ & H).
  apply H. vm_compute. reflexivity.
Defined.

(** ** Validation of the property keys *)

Lemma existsb_eqb_In x (l : list string) :
  existsb (String.eqb x) l = true <-> In x l.
Proof.
  rewrite existsb_exists. split.
  - intros (y & Hy & E). apply String.eqb_eq in E. subst y. exact Hy.
  - intros H. exists x. split; [exact H | apply String.eqb_refl].
Qed.

(** The test on key lists is equality of the sets of keys. *)
Lemma set_eqb_same_keys (a b : list string) :
  set_eqb a b = true <-> (forall x, In x a <-> In x b).
Proof.
  unfold set_eqb. rewrite andb_true_iff, !forallb_forall. split.
  - intros [Hab Hba] x. split; intros H.
    + apply existsb_eqb_In, Hab, H.
    + apply existsb_eqb_In, Hba, H.
  - intros H. split; intros x Hx; apply existsb_eqb_In, H, Hx.
Qed.

(** X8: [validate_record] compares the record with the schema by their sets
    of property names only, whatever the order, the repetitions and the
    values: when the two sets are equal its answer is that of the geometry
    validation, and when they differ the answer is [False], and the
    geometry is not looked at. *)
Theorem validate_record_compares_key_sets (N : Native) (record sch : value)
    (rp sp : list (string * value)) (st st1 : State) :
  py_getitem record "properties" = inr (VDict rp) ->
  Col.schema N st = (st1, inr sch) ->
  py_getitem sch "properties" = inr (VDict sp) ->
  ((forall k, In k (map fst rp) <-> In k (map fst sp)) ->
   Col.validate_record N record st =
     Col.validate_record_geometry N record st1) /\
  (~ (forall k, In k (map fst rp) <-> In k (map fst sp)) ->
   Col.validate_record N record st = (st1, inr false)).
Proof.
  intros Hr Hs Hp.
  assert (Hrun : Col.validate_record N record st =
                 if set_eqb (map fst rp) (map fst sp)
                 then Col.validate_record_geometry N record st1
                 else (st1, inr false)).
  { unfold Col.validate_record, bind, lift, ret. rewrite Hr. simpl.
    rewrite Hs, Hp. simpl.
    destruct (set_eqb (map fst rp) (map fst sp)); reflexivity. }
  split; intros H; rewrite Hrun.
  - apply set_eqb_same_keys in H. rewrite H. reflexivity.
  - destruct (set_eqb (map fst rp) (map fst sp)) eqn:E; [ | reflexivity ].
    exfalso. apply H. apply set_eqb_same_keys, E.
Qed.

Lemma validate_record_compares_key_sets_witness :
  let N := Sample.native (inr tt) (fun _ => 0) in
  let st := Sample.shapefile_writer "Point" in
  Col.validate_record N
    (VDict [("geometry", VDict [("type", VStr "Point")]);
            ("properties", VDict [("name", VStr "x")])]) st
  = (st, inr false).
Proof.
  intros N st.
  apply (proj2 (validate_record_compares_key_sets N
                  (VDict [("geometry", VDict [("type", VStr "Point")]);
                          ("properties", VDict [("name", VStr "x")])])
                  (VDict [("geometry", VStr "Point");
                          ("properties", VDict [])])
                  [("name", VStr "x")] [] st st
                  eq_refl eq_refl eq_refl)).
  intros H. destruct (proj1 (H "name")). simpl. left. reflexivity.
Defined.

(** * Further properties of the constructors *)

Section Constructor.

Variable N : Native.
Variable S : Setup.

(** The argument checks only raise or return: the state is as it was. *)
Lemma check_arguments_state a st :
  fst (Col.check_arguments S a st) = st.
Proof.
  pose proof (check_arguments_silent S a st) as Ht.
  pose proof (check_arguments_keeps S (fun c => c) a st) as Hs.
  destruct (fst (Col.check_arguments S a st)) as [c t].
  destruct st as [c0 t0]. simpl in *. congruence.
Qed.

(** The parts of a constructor call that returns. *)
Lemma init_returns_inv a st st' :
  Col.__init__ N S a st = (st', inr tt) ->
  exists s1 s3,
    Col.check_arguments S a st = (st, inr tt) /\
    Col.choose_name S a
      {| self := reset_attributes S a (self st); trace := trace st |}
      = (s1, inr tt) /\
    when (eq_str (arg_mode a) "w") (Col.write_mode_setup S a)
      {| self := set_mode (as_str (arg_mode a)) (self s1);
         trace := trace s1 |}
      = (s3, inr tt) /\
    Col.enter_and_open N S a s3 = (st', inr tt).
Proof.
  intros H. unfold Col.__init__ in H.
  apply bind_success in H. destruct H as (s0 & [] & H0 & H).
  pose proof (check_arguments_state a st) as E0. rewrite H0 in E0.
  simpl in E0. subst s0.
  do 11 (apply bind_success in H;
         let s := fresh "s" in let E := fresh "E" in
         destruct H as (s & [] & E & H); apply assign_run in E; subst s;
         cbn [self trace] in H).
  apply bind_success in H. destruct H as (s1 & [] & H1 & H).
  apply bind_success in H. destruct H as (s2 & [] & H2 & H).
  apply assign_run in H2. subst s2.
  apply bind_success in H. destruct H as (s3 & [] & H3 & H).
  exists s1, s3. unfold reset_attributes.
  split; [exact H0 | split; [exact H1 | split; [exact H3 | exact H]]].
Qed.

(** A mode accepted by the argument checks is one of the three. *)
Lemma check_arguments_mode a st :
  Col.check_arguments S a st = (st, inr tt) ->
  is_str (arg_path a) = true /\
  arg_mode a = VStr (as_str (arg_mode a)) /\
  valid_mode (as_str (arg_mode a)) = true.
Proof.
  unfold Col.check_arguments. intros H.
  apply bind_success in H. destruct H as (s & [] & H1 & H).
  apply bind_success in H. destruct H as (s' & [] & H2 & _).
  unfold when, raise, ret in H1, H2.
  destruct (is_str (arg_path a)); [ | discriminate ].
  destruct (arg_mode a) as [ | | | m | | | ]; simpl in H2; try discriminate.
  unfold valid_mode. simpl.
  destruct (String.eqb m "r"), (String.eqb m "w"), (String.eqb m "a");
    simpl in *; try discriminate; repeat split.
Qed.

(** What the end of the constructor leaves when it returns. *)
Lemma enter_and_open_returns a s st' :
  Col.enter_and_open N S a s = (st', inr tt) ->
  valid_mode (mode (self s)) = true ->
  let kind := session_for (mode (self s)) in
  let started :=
    set_session (Some kind)
      (set_encoding (arg_encoding a)
         (set__driver (Col.effective_driver a)
            (set_env (Some tt) (self s)))) in
  session (self st') = Some kind /\
  env (self st') = Some tt /\
  _driver (self st') = Col.effective_driver a /\
  map ev_call (events_since (trace s) (trace st')) =
    ((if truthy (arg_encoding a) then [] else [call_get_fileencoding]) ++
     [call_get_driver;
      call_start kind started
        (kw_update "encoding" (py_or (arg_encoding a) (VStr ""))
           (arg_kwargs a));
      call_env_enter])%list /\
  (if truthy (arg_encoding a)
   then encoding (self st') = arg_encoding a
   else exists enc, encoding (self st') = VStr (PyStr.lower enc)).
Proof.
  unfold valid_mode, session_for.
  unfold Col.enter_and_open, Col.open_session, Col.guard_driver_mode,
    Col.on_session, Col.none_has_no, try_except_IOError, bind, assign,
    invoke, get_self, when, raise, ret, mode_in_aw.
  simpl.
  destruct (env_enter N (trace s)) as [e0 | []]; simpl; [discriminate | ].
  destruct (String.eqb (mode (self s)) "r") eqn:Hr; simpl.
  - destruct (start N _ Session _ _) as [e1 | []]; simpl.
    { destruct (is_IOError e1); discriminate. }
    destruct (get_driver N _) as [e2 | d]; simpl; [discriminate | ].
    destruct (table_get d (supported_drivers S)) as [modes | ]; simpl;
      [ | discriminate ].
    destruct (PyStr.contains (mode (self s)) modes); simpl;
      [ | discriminate ].
    destruct (truthy (arg_encoding a)) eqn:Henc; simpl.
    + intros [= <-] _. simpl. rewrite events_since_3. repeat split.
    + destruct (get_fileencoding N _) as [e3 | enc]; simpl; [discriminate | ].
      intros [= <-] _. simpl. rewrite events_since_4. repeat split.
      exists enc. reflexivity.
  - destruct (String.eqb (mode (self s)) "a" || String.eqb (mode (self s)) "w")
      eqn:Haw; simpl.
    + destruct (start N _ WritingSession _ _) as [e1 | []]; simpl.
      { destruct (is_IOError e1); discriminate. }
      destruct (get_driver N _) as [e2 | d]; simpl; [discriminate | ].
      destruct (table_get d (supported_drivers S)) as [modes | ]; simpl;
        [ | discriminate ].
      destruct (PyStr.contains (mode (self s)) modes); simpl;
        [ | discriminate ].
      destruct (truthy (arg_encoding a)) eqn:Henc; simpl.
      * intros [= <-] _. simpl. rewrite events_since_3. repeat split.
      * destruct (get_fileencoding N _) as [e3 | enc]; simpl;
          [discriminate | ].
        intros [= <-] _. simpl. rewrite events_since_4. repeat split.
        exists enc. reflexivity.
    + intros _ Hv. exfalso.
      apply orb_false_iff in Haw. destruct Haw as [Ha Hw].
      rewrite Ha, Hw in Hv. discriminate.
Qed.

(** Attributes that the three set-up blocks leave alone. *)
Lemma write_mode_setup_keeps_handle a :
  keeps mode (Col.write_mode_setup S a) /\
  keeps iterator (Col.write_mode_setup S a) /\
  keeps _len (Col.write_mode_setup S a) /\
  keeps _bounds (Col.write_mode_setup S a) /\
  keeps enabled_drivers (Col.write_mode_setup S a) /\
  keeps session (Col.write_mode_setup S a).
Proof.
  unfold Col.write_mode_setup, Col.negotiate_crs.
  repeat split; keeping.
Qed.

Lemma enter_and_open_keeps_handle a :
  keeps mode (Col.enter_and_open N S a) /\
  keeps iterator (Col.enter_and_open N S a) /\
  keeps _len (Col.enter_and_open N S a) /\
  keeps _bounds (Col.enter_and_open N S a) /\
  keeps enabled_drivers (Col.enter_and_open N S a) /\
  keeps _schema (Col.enter_and_open N S a).
Proof.
  unfold Col.enter_and_open, Col.open_session, Col.guard_driver_mode,
    Col.on_session, Col.none_has_no.
  repeat split; keeping.
Qed.

End Constructor.

(** The mode and the session of a handle that the constructor returns. *)
Lemma init_returns_session (N : Native) (S : Setup) a st st' :
  Col.__init__ N S a st = (st', inr tt) ->
  let m := as_str (arg_mode a) in
  arg_mode a = VStr m /\
  valid_mode m = true /\
  mode (self st') = m /\
  session (self st') = Some (session_for m) /\
  env (self st') = Some tt /\
  _driver (self st') = Col.effective_driver a.
Proof.
  intros H m.
  destruct (init_returns_inv N S a st st' H) as (s1 & s3 & H0 & H1 & H3 & H4).
  destruct (check_arguments_mode S a st H0) as (_ & Hm & Hv).
  destruct (write_mode_setup_keeps_handle S a) as (Wm & _).
  destruct (enter_and_open_keeps_handle N S a) as (Em & _).
  assert (M3 : mode (self s3) = m).
  { rewrite (keeps_run mode _ _ _ _ (keeps_when mode _ _ Wm) H3).
    reflexivity. }
  assert (Hvalid : valid_mode (mode (self s3)) = true) by (rewrite M3; exact Hv).
  destruct (enter_and_open_returns N S a s3 st' H4 Hvalid)
    as (Hs & He & Hd & _ & _).
  rewrite M3 in Hs.
  repeat split; try assumption.
  rewrite (keeps_run _ _ _ _ _ Em H4). exact M3.
Qed.

(** X9: a constructor call that returns leaves an open handle: the mode is
    one of 'r', 'a' and 'w' and is the one stored, the session is a reading
    session in mode 'r' and a writing session otherwise, the runtime context
    is held, no iterator is stored, no length or extent is cached, and the
    driver stored is the one given (with 'Shapefile' spelled out as
    'ESRI Shapefile' in write mode). *)
Theorem init_returns_open_handle (N : Native) (S : Setup) (a : InitArgs)
    (st st' : State) :
  Col.__init__ N S a st = (st', inr tt) ->
  let m := as_str (arg_mode a) in
  arg_mode a = VStr m /\
  valid_mode m = true /\
  mode (self st') = m /\
  session (self st') = Some (session_for m) /\
  closed (self st') = false /\
  env (self st') = Some tt /\
  iterator (self st') = None /\
  _len (self st') = 0 /\
  _bounds (self st') = VNone /\
  enabled_drivers (self st') = arg_enabled_drivers a /\
  _driver (self st') = Col.effective_driver a.
Proof.
  intros H m.
  destruct (init_returns_session N S a st st' H)
    as (Hm & Hv & Hmd & Hs & He & Hd).
  destruct (init_returns_inv N S a st st' H) as (s1 & s3 & H0 & H1 & H3 & H4).
  destruct (write_mode_setup_keeps_handle S a)
    as (_ & Wi & Wl & Wb & We & _).
  destruct (enter_and_open_keeps_handle N S a) as (_ & Ei & El & Eb & Ee & _).
  pose proof (fun X (f : Collection -> X) (Hf : forall v c, f (set_name v c) = f c) =>
                keeps_run f _ _ _ _ (choose_name_keeps S f a Hf) H1) as K1.
  repeat split; try assumption.
  - unfold closed. rewrite Hs. reflexivity.
  - rewrite (keeps_run _ _ _ _ _ Ei H4),
      (keeps_run _ _ _ _ _ (keeps_when iterator _ _ Wi) H3).
    simpl. rewrite (K1 _ iterator (fun _ _ => eq_refl)). reflexivity.
  - rewrite (keeps_run _ _ _ _ _ El H4),
      (keeps_run _ _ _ _ _ (keeps_when _len _ _ Wl) H3).
    simpl. rewrite (K1 _ _len (fun _ _ => eq_refl)). reflexivity.
  - rewrite (keeps_run _ _ _ _ _ Eb H4),
      (keeps_run _ _ _ _ _ (keeps_when _bounds _ _ Wb) H3).
    simpl. rewrite (K1 _ _bounds (fun _ _ => eq_refl)). reflexivity.
  - rewrite (keeps_run _ _ _ _ _ Ee H4),
      (keeps_run _ _ _ _ _ (keeps_when enabled_drivers _ _ We) H3).
    simpl. rewrite (K1 _ enabled_drivers (fun _ _ => eq_refl)). reflexivity.
Qed.

Lemma init_returns_open_handle_witness :
  let N := Sample.native (inr tt) (fun _ => 0) in
  let a := with_driver (VStr "Shapefile")
             (with_schema Sample.point_schema
                (with_mode (VStr "w") (default_args "out.shp"))) in
  let opened := fst (Col.__init__ N Sample.setup a Sample.fresh) in
  session (self opened) = Some WritingSession /\
  _driver (self opened) = VStr "ESRI Shapefile".
Proof.
  intros N a opened.
  assert (Hrun : Col.__init__ N Sample.setup a Sample.fresh = (opened, inr tt))
    by (vm_compute; reflexivity).
  destruct (init_returns_open_handle N Sample.setup a Sample.fresh opened Hrun)
    as (_ & _ & _ & Hs & _ & _ & _ & _ & _ & _ & Hd).
  split; [exact Hs | exact Hd].
Defined.



(** What the write-mode block has checked and stored when it returns. *)
Lemma write_mode_setup_returns (S : Setup) a s s' :
  Col.write_mode_setup S a s = (s', inr tt) ->
  truthy (Col.effective_driver a) = true /\
  (exists modes,
     table_get (as_str (Col.effective_driver a)) (supported_drivers S)
       = Some modes /\
     PyStr.contains (as_str (arg_mode a)) modes = true) /\
  truthy (arg_schema a) = true /\
  py_in "properties" (arg_schema a) = inr true /\
  py_in "geometry" (arg_schema a) = inr true /\
  _schema (self s') = arg_schema a /\
  (if truthy (arg_crs_wkt a) then
     _crs_wkt (self s') = arg_crs_wkt a /\ _crs (self s') = _crs (self s)
   else if truthy (arg_crs a) then
     _crs (self s') = arg_crs a /\ _crs_wkt (self s') = _crs_wkt (self s) /\
     (py_in "init" (arg_crs a) = inr true \/
      py_in "proj" (arg_crs a) = inr true \/
      exists low, py_lower (arg_crs a) = inr low /\
                  PyStr.contains "epsg" low = true)
   else
     _crs (self s') = _crs (self s) /\ _crs_wkt (self s') = _crs_wkt (self s)).
Proof.
  unfold Col.write_mode_setup, Col.negotiate_crs, bind, when, assign, lift,
    raise, ret.
  destruct (truthy (Col.effective_driver a)); simpl; [ | discriminate ].
  destruct (table_get (as_str (Col.effective_driver a)) (supported_drivers S))
    as [modes | ]; simpl; [ | discriminate ].
  destruct (PyStr.contains (as_str (arg_mode a)) modes) eqn:Hmodes; simpl;
    [ | discriminate ].
  destruct (truthy (arg_schema a)); simpl; [ | discriminate ].
  destruct (py_in "properties" (arg_schema a)) as [e | [ | ]]; simpl;
    try discriminate.
  destruct (py_in "geometry" (arg_schema a)) as [e | [ | ]]; simpl;
    try discriminate.
  destruct (truthy (arg_crs_wkt a)); simpl.
  { intros [= <-]. simpl. repeat split. exists modes. split; [reflexivity | exact Hmodes]. }
  destruct (truthy (arg_crs a)); simpl.
  2:{ intros [= <-]. simpl. repeat split. exists modes. split; [reflexivity | exact Hmodes]. }
  destruct (py_in "init" (arg_crs a)) as [e | [ | ]] eqn:Hinit; simpl;
    try discriminate.
  { intros [= <-]. simpl. repeat split; auto. exists modes. split; [reflexivity | exact Hmodes]. }
  destruct (py_in "proj" (arg_crs a)) as [e | [ | ]] eqn:Hproj; simpl;
    try discriminate.
  { intros [= <-]. simpl. repeat split; auto. exists modes. split; [reflexivity | exact Hmodes]. }
  destruct (py_lower (arg_crs a)) as [e | low] eqn:Hlow; simpl;
    try discriminate.
  destruct (PyStr.contains "epsg" low) eqn:Hepsg; simpl; try discriminate.
  intros [= <-]. simpl. repeat split.
  - exists modes. split; [reflexivity | exact Hmodes].
  - right. right. exists low. split; [reflexivity | exact Hepsg].
Qed.

Lemma bind_assign_run {B} g (f : unit -> M B) st :
  bind (assign g) f st = f tt {| self := g (self st); trace := trace st |}.
Proof. reflexivity. Qed.

Lemma bind_raised {A B} (m : M A) (f : A -> M B) st s e :
  m st = (s, inl e) -> bind m f st = (s, inl e).
Proof. intros H. unfold bind. rewrite H. reflexivity. Qed.

Lemma bind_returned {A B} (m : M A) (f : A -> M B) st s x :
  m st = (s, inr x) -> bind m f st = f x s.
Proof. intros H. unfold bind. rewrite H. reflexivity. Qed.

(** A constructor call either raises in its set-up, before any native call,
    or goes on to enter the runtime context and open the session with the
    arguments checked, the name chosen and the write-mode block passed. *)
Lemma init_cases (N : Native) (S : Setup) a st :
  rejected (trace st) (Col.__init__ N S a st) \/
  exists s1 s3,
    Col.check_arguments S a st = (st, inr tt) /\
    Col.choose_name S a
      {| self := reset_attributes S a (self st); trace := trace st |}
      = (s1, inr tt) /\
    when (eq_str (arg_mode a) "w") (Col.write_mode_setup S a)
      {| self := set_mode (as_str (arg_mode a)) (self s1);
         trace := trace s1 |}
      = (s3, inr tt) /\
    trace s3 = trace st /\
    Col.__init__ N S a st = Col.enter_and_open N S a s3.
Proof.
  unfold Col.__init__.
  pose proof (check_arguments_state S a st) as E0.
  destruct (Col.check_arguments S a st) as [s0 [e | []]] eqn:H0;
    simpl in E0; subst s0.
  { left. rewrite (bind_raised _ _ _ _ _ H0). split; [eexists | ]; reflexivity. }
  rewrite (bind_returned _ _ _ _ _ H0).
  rewrite !bind_assign_run. cbn [self trace].
  change (set_path (vsi_path S (as_str (arg_path a)) (arg_vsi a) (arg_archive a))
            (set_enabled_drivers (arg_enabled_drivers a)
               (set_env None
                  (set__crs_wkt VNone
                     (set__crs VNone
                        (set__schema VNone
                           (set__driver VNone
                              (set__bounds VNone
                                 (set__len 0
                                    (set_iterator None
                                       (set_session None (self st))))))))))))
    with (reset_attributes S a (self st)).
  pose proof (choose_name_silent S a
                {| self := reset_attributes S a (self st);
                   trace := trace st |}) as T1.
  destruct (Col.choose_name S a
              {| self := reset_attributes S a (self st); trace := trace st |})
    as [s1 [e | []]] eqn:H1; simpl in T1.
  { left. rewrite (bind_raised _ _ _ _ _ H1).
    split; [eexists; reflexivity | exact T1]. }
  rewrite (bind_returned _ _ _ _ _ H1).
  rewrite bind_assign_run.
  pose proof (silent_when (eq_str (arg_mode a) "w") _
                (write_mode_setup_silent S a)
                {| self := set_mode (as_str (arg_mode a)) (self s1);
                   trace := trace s1 |}) as T3.
  destruct (when (eq_str (arg_mode a) "w") (Col.write_mode_setup S a)
              {| self := set_mode (as_str (arg_mode a)) (self s1);
                 trace := trace s1 |})
    as [s3 [e | []]] eqn:H3; simpl in T3.
  { left. rewrite (bind_raised _ _ _ _ _ H3).
    split; [eexists; reflexivity | simpl; congruence]. }
  rewrite (bind_returned _ _ _ _ _ H3).
  right. exists s1, s3.
  split; [first [reflexivity | exact H0] | ].
  split; [first [reflexivity | exact H1] | ].
  split; [first [reflexivity | exact H3] | ].
  split; [congruence | reflexivity].
Qed.



(** X12: in write mode a constructor call without a driver or without a
    schema raises, and does so before the runtime context is entered: no
    native call is made. *)
Theorem write_mode_requires_driver_and_schema (N : Native) (S : Setup)
    (a : InitArgs) (st : State) :
  arg_mode a = VStr "w" ->
  truthy (arg_driver a) = false \/ truthy (arg_schema a) = false ->
  (exists e, snd (Col.__init__ N S a st) = inl e) /\
  trace (fst (Col.__init__ N S a st)) = trace st.
Proof.
  intros Hmode Hmissing.
  destruct (init_cases N S a st)
    as [Hrej | (s1 & s3 & _ & _ & H3 & _ & _)]; [exact Hrej | exfalso].
  rewrite Hmode in H3. simpl in H3.
  destruct (write_mode_setup_returns S a _ _ H3) as (Hd & _ & Hs & _).
  destruct Hmissing as [Hm | Hm].
  - unfold Col.effective_driver in Hd. rewrite Hmode in Hd. simpl in Hd.
    destruct (eq_str (arg_driver a) "Shapefile") eqn:E.
    + destruct (arg_driver a); simpl in *; try discriminate.
      apply String.eqb_eq in E. subst. discriminate.
    + congruence.
  - congruence.
Qed.

Lemma write_mode_requires_driver_and_schema_witness :
  let N := Sample.native (inr tt) (fun _ => 0) in
  let a := with_driver (VStr "GeoJSON")
             (with_mode (VStr "w") (default_args "out.json")) in
  trace (fst (Col.__init__ N Sample.setup a Sample.fresh)) = [].
Proof.
  intros N a.
  exact (proj2 (write_mode_requires_driver_and_schema N Sample.setup a
                  Sample.fresh eq_refl (or_intror eq_refl))).
Defined.

(** X13: in write mode the GeoJSON driver takes no layer: a constructor
    call that names one raises before any native call. *)
Theorem geojson_takes_no_layer (N : Native) (S : Setup) (a : InitArgs)
    (st : State) :
  arg_mode a = VStr "w" ->
  arg_driver a = VStr "GeoJSON" ->
  arg_layer a <> VNone ->
  (exists e, snd (Col.__init__ N S a st) = inl e) /\
  trace (fst (Col.__init__ N S a st)) = trace st.
Proof.
  intros Hmode Hdriver Hlayer.
  destruct (init_cases N S a st)
    as [Hrej | (s1 & s3 & _ & H1 & _ & _ & _)]; [exact Hrej | exfalso].
  unfold Col.choose_name, bind, when, raise, ret, assign in H1.
  rewrite Hmode, Hdriver in H1. simpl in H1.
  destruct (truthy (arg_layer a) && negb (is_str (arg_layer a)));
    [discriminate | ].
  destruct (arg_layer a); simpl in H1; try discriminate.
  apply Hlayer. reflexivity.
Qed.

Lemma geojson_takes_no_layer_witness :
  let N := Sample.native (inr tt) (fun _ => 0) in
  let a := {| arg_path := VStr "out.json"; arg_mode := VStr "w";
              arg_driver := VStr "GeoJSON";
              arg_schema := Sample.point_schema; arg_crs := VNone;
              arg_encoding := VNone; arg_layer := VStr "points";
              arg_vsi := VNone; arg_archive := VNone;
              arg_enabled_drivers := VNone; arg_crs_wkt := VNone;
              arg_kwargs := [] |} in
  trace (fst (Col.__init__ N Sample.setup a Sample.fresh)) = [].
Proof.
  intros N a.
  exact (proj2 (geojson_takes_no_layer N Sample.setup a Sample.fresh
                  eq_refl eq_refl ltac:(discriminate))).
Defined.

(** X14: a constructor call in write mode that returns has stored the
    schema given, which has both a 'properties' and a 'geometry' entry, and
    a driver that the support table lists for mode 'w'.  Without a [crs_wkt],
    a [crs] given is stored only if it has an 'init' or a 'proj' entry (or,
    for a string, mentions 'epsg'), and nothing is stored as well-known text;
    with neither, no coordinate reference system is stored. *)
Theorem write_mode_stores (N : Native) (S : Setup) (a : InitArgs)
    (st st' : State) :
  arg_mode a = VStr "w" ->
  Col.__init__ N S a st = (st', inr tt) ->
  _schema (self st') = arg_schema a /\
  py_in "properties" (arg_schema a) = inr true /\
  py_in "geometry" (arg_schema a) = inr true /\
  (exists modes,
     table_get (as_str (Col.effective_driver a)) (supported_drivers S)
       = Some modes /\
     PyStr.contains "w" modes = true) /\
  (truthy (arg_crs_wkt a) = false ->
   _crs_wkt (self st') = VNone /\
   if truthy (arg_crs a) then
     _crs (self st') = arg_crs a /\
     (py_in "init" (arg_crs a) = inr true \/
      py_in "proj" (arg_crs a) = inr true \/
      exists low, py_lower (arg_crs a) = inr low /\
                  PyStr.contains "epsg" low = true)
   else _crs (self st') = VNone).
Proof.
  intros Hmode H.
  destruct (init_returns_inv N S a st st' H) as (s1 & s3 & _ & H1 & H3 & H4).
  rewrite Hmode in H3. simpl in H3.
  destruct (write_mode_setup_returns S a _ _ H3)
    as (_ & Hsup & _ & Hp & Hg & Hsch & Hcrs).
  rewrite Hmode in Hsup. simpl in Hsup, Hcrs.
  destruct (enter_and_open_keeps_handle N S a) as (_ & _ & _ & _ & _ & Es).
  destruct (enter_and_open_keeps_crs N S a) as (Ec & Ew).
  rewrite (keeps_run _ _ _ _ _ Es H4), (keeps_run _ _ _ _ _ Ec H4),
    (keeps_run _ _ _ _ _ Ew H4).
  pose proof (keeps_run _crs _ _ _ _
                (choose_name_keeps S _crs a (fun _ _ => eq_refl)) H1) as K1.
  pose proof (keeps_run _crs_wkt _ _ _ _
                (choose_name_keeps S _crs_wkt a (fun _ _ => eq_refl)) H1) as K2.
  simpl in K1, K2.
  split; [exact Hsch | ]. split; [exact Hp | ]. split; [exact Hg | ].
  split; [exact Hsup | ].
  intros Hw. rewrite Hw in Hcrs.
  destruct (truthy (arg_crs a)).
  - destruct Hcrs as (Hc & Hk & Hmark).
    split; [congruence | split; [exact Hc | exact Hmark]].
  - destruct Hcrs as (Hc & Hk). split; congruence.
Qed.

Lemma write_mode_stores_witness :
  let N := Sample.native (inr tt) (fun _ => 0) in
  let a := with_crs (VDict [("init", VStr "epsg:4326")])
             Sample.geojson_writer_args in
  let opened := fst (Col.__init__ N Sample.setup a Sample.fresh) in
  _schema (self opened) = Sample.point_schema /\
  _crs (self opened) = VDict [("init", VStr "epsg:4326")].
Proof.
  intros N a opened.
  assert (Hrun : Col.__init__ N Sample.setup a Sample.fresh = (opened, inr tt))
    by (vm_compute; reflexivity).
  destruct (write_mode_stores N Sample.setup a Sample.fresh opened
              eq_refl Hrun) as (Hs & _ & _ & _ & Hc).
  split; [exact Hs | ].
  destruct (Hc eq_refl) as (_ & Hcrs).
  change (truthy (arg_crs a)) with true in Hcrs. exact (proj1 Hcrs).
Defined.

(** X15: in read and append mode the constructor stores neither the schema
    nor a coordinate reference system, whatever was passed: on the handle
    returned, the first access to [schema], [crs] and [crs_wkt] asks the
    session and caches the answer. *)
Theorem read_mode_infers_lazily (N : Native) (S : Setup) (a : InitArgs)
    (st st' : State) :
  arg_mode a <> VStr "w" ->
  Col.__init__ N S a st = (st', inr tt) ->
  (_schema (self st') = VNone /\ _crs (self st') = VNone /\
   _crs_wkt (self st') = VNone) /\
  (forall v, get_schema N (trace st') = inr v ->
     Col.schema N st' =
       ({| self := set__schema v (self st');
           trace := returned call_get_schema :: trace st' |}, inr v)) /\
  (forall v, get_crs N (trace st') = inr v ->
     Col.crs N st' =
       ({| self := set__crs v (self st');
           trace := returned call_get_crs :: trace st' |}, inr v)) /\
  (forall w, get_crs_wkt N (trace st') = inr w ->
     Col.crs_wkt N st' =
       ({| self := set__crs_wkt (VStr w) (self st');
           trace := returned call_get_crs_wkt :: trace st' |},
        inr (VStr w))).
Proof.
  intros Hmode H.
  destruct (init_returns_session N S a st st' H)
    as (Hm & Hv & Hmd & Hs & _).
  assert (Har : mode_in_ar (mode (self st')) = true).
  { rewrite Hmd. unfold valid_mode in Hv. unfold mode_in_ar.
    destruct (String.eqb (as_str (arg_mode a)) "w") eqn:E.
    - exfalso. apply Hmode. rewrite Hm. apply String.eqb_eq in E.
      rewrite E. reflexivity.
    - destruct (String.eqb (as_str (arg_mode a)) "r"),
        (String.eqb (as_str (arg_mode a)) "a"); simpl in *;
        try reflexivity; discriminate. }
  destruct (init_returns_inv N S a st st' H) as (s1 & s3 & _ & H1 & H3 & H4).
  assert (Hw : eq_str (arg_mode a) "w" = false).
  { destruct (arg_mode a); simpl; try reflexivity.
    apply String.eqb_neq. intros ->. apply Hmode. reflexivity. }
  rewrite Hw in H3. simpl in H3. unfold ret in H3. injection H3 as <-.
  destruct (enter_and_open_keeps_handle N S a) as (_ & _ & _ & _ & _ & Es).
  destruct (enter_and_open_keeps_crs N S a) as (Ec & Ew).
  pose proof (keeps_run _ _ _ _ _ Es H4) as F1.
  pose proof (keeps_run _ _ _ _ _ Ec H4) as F2.
  pose proof (keeps_run _ _ _ _ _ Ew H4) as F3.
  simpl in F1, F2, F3.
  rewrite (keeps_run _schema _ _ _ _
             (choose_name_keeps S _schema a (fun _ _ => eq_refl)) H1) in F1.
  rewrite (keeps_run _crs _ _ _ _
             (choose_name_keeps S _crs a (fun _ _ => eq_refl)) H1) in F2.
  rewrite (keeps_run _crs_wkt _ _ _ _
             (choose_name_keeps S _crs_wkt a (fun _ _ => eq_refl)) H1) in F3.
  simpl in F1, F2, F3.
  split; [repeat split; assumption | ].
  repeat split.
  - intros v Hv'. unfold Col.schema, bind, get_self, when, invoke, assign, ret.
    rewrite F1, Har, Hs. simpl. rewrite Hv'. reflexivity.
  - intros v Hv'. unfold Col.crs, bind, get_self, when, invoke, assign, ret.
    rewrite F2, Hs. simpl. rewrite Hv'. reflexivity.
  - intros w Hv'. unfold Col.crs_wkt, bind, get_self, when, invoke, assign,
      ret.
    rewrite F3, Hs. simpl. rewrite Hv'. reflexivity.
Qed.

Lemma read_mode_infers_lazily_witness :
  let N := Sample.native (inr tt) (fun _ => 0) in
  let a := with_schema Sample.point_schema
             (with_crs (VStr "+init=epsg:4326") (default_args "a.shp")) in
  let opened := fst (Col.__init__ N Sample.setup a Sample.fresh) in
  _schema (self opened) = VNone /\
  snd (Col.crs_wkt N opened) = inr (VStr "GEOGCS").
Proof.
  intros N a opened.
  assert (Hrun : Col.__init__ N Sample.setup a Sample.fresh = (opened, inr tt))
    by (vm_compute; reflexivity).
  destruct (read_mode_infers_lazily N Sample.setup a Sample.fresh opened
              ltac:(discriminate) Hrun) as ((Hs & _) & _ & _ & Hw).
  split; [exact Hs | ].
  rewrite (Hw "GEOGCS" eq_refl). reflexivity.
Defined.

Section DriverCheck.

Variable N : Native.
Variable S : Setup.

Lemma enter_and_open_driver_check a s e :
  valid_mode (mode (self s)) = true ->
  driver_check_outcome (trace s) e (Col.enter_and_open N S a s).
Proof.
  unfold valid_mode, driver_check_outcome.
  unfold Col.enter_and_open, Col.open_session, Col.guard_driver_mode,
    Col.on_session, Col.none_has_no, try_except_IOError, bind, assign,
    invoke, get_self, when, raise, ret, mode_in_aw, returned.
  simpl.
  destruct (env_enter N (trace s)) as [e0 | []]; simpl.
  { rewrite events_since_1. discriminate. }
  destruct (String.eqb (mode (self s)) "r") eqn:Hr; simpl.
  - destruct (start N _ Session _ _) as [e1 | []]; simpl.
    { destruct (is_IOError e1); simpl; rewrite events_since_2; discriminate. }
    destruct (get_driver N _) as [e2 | d]; simpl.
    { rewrite events_since_3. discriminate. }
    destruct (table_get d (supported_drivers S)) as [modes | ]; simpl.
    2:{ rewrite events_since_3. intros _ [= <-] _. repeat split. }
    destruct (PyStr.contains (mode (self s)) modes); simpl.
    2:{ rewrite events_since_3. intros _ [= <-] _. repeat split. }
    destruct (truthy (arg_encoding a)); simpl; [discriminate | ].
    destruct (get_fileencoding N _) as [e3 | enc]; simpl;
      rewrite events_since_4; discriminate.
  - destruct (String.eqb (mode (self s)) "a" || String.eqb (mode (self s)) "w")
      eqn:Haw; simpl.
    + destruct (start N _ WritingSession _ _) as [e1 | []]; simpl.
      { destruct (is_IOError e1); simpl; rewrite events_since_2;
          discriminate. }
      destruct (get_driver N _) as [e2 | d]; simpl.
      { rewrite events_since_3. discriminate. }
      destruct (table_get d (supported_drivers S)) as [modes | ]; simpl.
      2:{ rewrite events_since_3. intros _ [= <-] _. repeat split. }
      destruct (PyStr.contains (mode (self s)) modes); simpl.
      2:{ rewrite events_since_3. intros _ [= <-] _. repeat split. }
      destruct (truthy (arg_encoding a)); simpl; [discriminate | ].
      destruct (get_fileencoding N _) as [e3 | enc]; simpl;
        rewrite events_since_4; discriminate.
    + intros Hv. exfalso.
      apply orb_false_iff in Haw. destruct Haw as [Ha Hw].
      rewrite Ha, Hw in Hv. discriminate.
Qed.

Lemma init_keeps_buffer a :
  keeps virtual_file (Col.__init__ N S a) /\
  keeps bytesbuf (Col.__init__ N S a).
Proof.
  destruct (write_mode_setup_keeps_path S a) as (_ & Wv & Wb).
  destruct (enter_and_open_keeps_path N S a) as (_ & Ev & Eb).
  unfold Col.__init__. split.
  - apply keeps_bind; [apply check_arguments_keeps | intros _].
    do 11 (apply keeps_bind;
             [apply keeps_assign; intros ?; reflexivity | intros _]).
    apply keeps_bind;
      [apply choose_name_keeps; intros ? ?; reflexivity | intros _].
    apply keeps_bind;
      [apply keeps_assign; intros ?; reflexivity | intros _].
    apply keeps_bind; [apply keeps_when, Wv | intros _]. exact Ev.
  - apply keeps_bind; [apply check_arguments_keeps | intros _].
    do 11 (apply keeps_bind;
             [apply keeps_assign; intros ?; reflexivity | intros _]).
    apply keeps_bind;
      [apply choose_name_keeps; intros ? ?; reflexivity | intros _].
    apply keeps_bind;
      [apply keeps_assign; intros ?; reflexivity | intros _].
    apply keeps_bind; [apply keeps_when, Wb | intros _]. exact Eb.
Qed.

End DriverCheck.

(** X16: when the constructor raises right after reading the driver of the
    session it has started (the driver is outside the support table, or does
    not support the mode), the error is a [DriverError] and the session is
    left as it is: started once, not stopped, still on the handle, which is
    therefore open, with the runtime context entered. *)
Theorem driver_check_failure_leaves_session (N : Native) (S : Setup)
    (a : InitArgs) (st : State) (e : exn) :
  let out := Col.__init__ N S a st in
  let new := events_since (trace st) (trace (fst out)) in
  snd out = inl e ->
  hd_error new = Some (returned call_get_driver) ->
  exc_type e = DriverError /\
  closed (self (fst out)) = false /\
  env (self (fst out)) = Some tt /\
  count is_start new = 1%nat /\
  count is_stop new = 0%nat.
Proof.
  intros out new. subst out new.
  destruct (init_cases N S a st)
    as [(_ & Ht) | (s1 & s3 & H0 & H1 & H3 & T3 & Hrun)].
  - rewrite Ht, events_since_0. discriminate.
  - rewrite Hrun, <- T3.
    apply enter_and_open_driver_check.
    destruct (check_arguments_mode S a st H0) as (_ & _ & Hv).
    destruct (write_mode_setup_keeps_handle S a) as (Wm & _).
    rewrite (keeps_run mode _ _ _ _ (keeps_when mode _ _ Wm) H3).
    exact Hv.
Qed.

Lemma driver_check_failure_leaves_session_witness :
  let N := Sample.native (inr tt) (fun _ => 0) in
  let out := Col.__init__ N Sample.setup
               (with_mode (VStr "a") (default_args "a.json")) Sample.fresh in
  closed (self (fst out)) = false /\
  count is_stop (trace (fst out)) = 0%nat.
Proof.
  intros N out.
  destruct (driver_check_failure_leaves_session N Sample.setup
              (with_mode (VStr "a") (default_args "a.json")) Sample.fresh
              (Exn DriverError "unsupported mode: %r" (VStr "a"))
              ltac:(vm_compute; reflexivity) ltac:(vm_compute; reflexivity))
    as (_ & Hc & _ & _ & Hs).
  split; [exact Hc | vm_compute; reflexivity].
Defined.

(** X17: [BytesCollection] takes bytes only; given anything else it raises
    [ValueError] and maps nothing.  Given bytes, once the buffer is mapped
    to a virtual file the handle keeps both the buffer and the path of the
    file, whether the constructor of [Collection] then returns or raises, so
    that [close] can still remove the file. *)
Theorem bytes_mapping_is_kept (N : Native) (S : Setup) (v : value)
    (kwds : list (string * value)) (st : State) :
  let out := BytesCol.__init__ N S v kwds st in
  match v with
  | VBytes buf =>
      forall vf,
        buffer_to_virtual_file N (trace st) buf
          (BytesCol.choose_ext (get_filetype buf) kwds) = inr vf ->
        virtual_file (self (fst out)) = VStr vf /\
        bytesbuf (self (fst out)) = VBytes buf
  | _ => out = (st, inl (Exn ValueError "input buffer must be bytes" VNone))
  end.
Proof.
  intros out. subst out.
  destruct v as [ | b | z | s | buf | l | d]; try reflexivity.
  intros vf Hvf.
  unfold BytesCol.__init__. cbv zeta. rewrite bind_assign_run.
  rewrite (bind_returned _ _ _
             {| self := set_bytesbuf (VBytes buf) (self st);
                trace := returned (call_buffer_to_virtual_file buf
                                     (BytesCol.choose_ext (get_filetype buf)
                                        kwds)) :: trace st |} vf)
    by (unfold invoke; cbn [self trace]; rewrite Hvf; reflexivity).
  rewrite bind_assign_run. cbn [self trace].
  destruct (kw_mem "path" kwds || kw_mem "vsi" kwds || kw_mem "encoding" kwds).
  - split; reflexivity.
  - destruct (init_keeps_buffer N S
                (BytesCol.bind_parameters vf (get_filetype buf) kwds))
      as (Kv & Kb).
    rewrite Kv, Kb. split; reflexivity.
Qed.

Lemma bytes_mapping_is_kept_witness :
  let N := Sample.native (inl Sample.io_error) (fun _ => 0) in
  let out := BytesCol.__init__ N Sample.setup (VBytes [x7b; x7d])
               [("driver", VStr "GeoJSON")] Sample.fresh in
  snd out = inl Sample.io_error /\
  virtual_file (self (fst out)) = VStr "/vsimem/buffer.json".
Proof.
  intros N out.
  split; [vm_compute; reflexivity | ].
  exact (proj1 (bytes_mapping_is_kept N Sample.setup (VBytes [x7b; x7d])
                  [("driver", VStr "GeoJSON")] Sample.fresh
                  "/vsimem/buffer.json" eq_refl)).
Defined.

(** ** What [close] never does *)

Ltac settle :=
  repeat split; intros; unfold count in *; simpl in *;
  first [ lia | reflexivity | discriminate | congruence | assumption ].

(** [close] never lowers the cached length. *)
Lemma close_never_lowers_cached_length (N : Native) (st : State) :
  _len (self st) <= _len (self (fst (Col.close N st))).
Proof.
  unfold Col.close, Col.flush, bind, get_self, when, invoke, assign, ret.
  destruct (session (self st)) as [k | ] eqn:Hs; simpl.
  - destruct (mode_in_aw (mode (self st))); simpl.
    + rewrite Hs. simpl.
      destruct (sync N (trace st) (self st)) as [e | []]; simpl; [lia | ].
      destruct (get_length N _) as [e | n]; simpl; [lia | ].
      pose proof (and_or_ge (_len (self st)) n) as Hge.
      destruct (get_extent N _) as [e | b]; simpl; [exact Hge | ].
      destruct (stop N _) as [e | []]; simpl; [exact Hge | ].
      destruct (env (self st)); simpl; exact Hge.
    + destruct (stop N _) as [e | []]; simpl; [lia | ].
      destruct (env (self st)); simpl; lia.
  - destruct (env (self st)); simpl; lia.
Qed.

(** X18: whatever the native layer answers, one [close] stops a session at
    most once and exits the runtime context at most once; it exits the
    context only with the handle closed, and a [close] that takes an open
    handle to a closed one has stopped the session. *)
Theorem close_never_exits_before_stop (N : Native) (st : State) :
  let out := Col.close N st in
  let new := events_since (trace st) (trace (fst out)) in
  (count is_stop new <= 1)%nat /\
  (count is_env_exit new <= 1)%nat /\
  (count is_env_exit new = 1%nat -> closed (self (fst out)) = true) /\
  (closed (self (fst out)) = true -> closed (self st) = false ->
   count is_stop new = 1%nat).
Proof.
  cbv zeta.
  unfold Col.close, Col.flush, bind, get_self, when, invoke, assign, ret,
    closed.
  destruct (session (self st)) as [k | ] eqn:Hs; simpl.
  - destruct (mode_in_aw (mode (self st))); simpl.
    + rewrite Hs. simpl.
      destruct (sync N (trace st) (self st)) as [e | []]; simpl.
      { rewrite Hs, events_since_1. settle. }
      destruct (get_length N _) as [e | n]; simpl.
      { rewrite Hs, events_since_2. settle. }
      destruct (get_extent N _) as [e | b]; simpl.
      { rewrite Hs, events_since_3. settle. }
      destruct (stop N _) as [e | []]; simpl.
      { rewrite Hs, events_since_4. settle. }
      destruct (env (self st)); simpl.
      * destruct (env_exit N _) as [e | []]; simpl; rewrite events_since_5;
          settle.
      * rewrite events_since_4. settle.
    + destruct (stop N _) as [e | []]; simpl.
      { rewrite Hs, events_since_1. settle. }
      destruct (env (self st)); simpl.
      * destruct (env_exit N _) as [e | []]; simpl; rewrite events_since_2;
          settle.
      * rewrite events_since_1. settle.
  - destruct (env (self st)); simpl.
    + destruct (env_exit N _) as [e | []]; simpl; rewrite Hs, events_since_1;
        settle.
    + rewrite Hs, events_since_0. settle.
Qed.

(** X19: in every mode, what [len] returns does not go down across a
    [close] that returns: in append and write mode the flush of [close] can
    only raise the cached length, and on the closed handle [len] returns the
    cached length. *)
Theorem len_does_not_decrease_over_close (N : Native)
    (st st1 st2 st3 : State) (v v' : Z) :
  Col.__len__ N st = (st1, inr v) ->
  Col.close N st1 = (st2, inr tt) ->
  Col.__len__ N st2 = (st3, inr v') ->
  v <= v'.
Proof.
  intros H1 H2 H3.
  assert (Hret : forall s s' x, Col.__len__ N s = (s', inr x) ->
                   _len (self s') = x /\ 0 <= x /\
                   (0 < _len (self s) -> x = _len (self s)) /\
                   (session (self s) = None -> x = _len (self s))).
  { intros s s' x. unfold Col.__len__, bind, get_self, when, invoke, assign,
      ret, raise.
    destruct ((_len (self s) <=? 0) && is_some (session (self s))) eqn:Hc;
      simpl.
    - destruct (get_length N (trace s)) as [e | n]; simpl; [discriminate | ].
      destruct (n <? 0) eqn:Hn; [discriminate | ].
      intros [= <- <-]. simpl. apply Z.ltb_ge in Hn.
      apply andb_true_iff in Hc. destruct Hc as [Hc Hsome].
      apply Z.leb_le in Hc. repeat split; try lia.
      intros Hnone. rewrite Hnone in Hsome. discriminate.
    - destruct (_len (self s) <? 0) eqn:Hn; [discriminate | ].
      intros [= <- <-]. apply Z.ltb_ge in Hn. repeat split; lia. }
  destruct (Hret _ _ _ H1) as (Hv & Hv0 & _ & _).
  destruct (Hret _ _ _ H3) as (_ & Hv'0 & Hcached & Hnone).
  pose proof (close_never_lowers_cached_length N st1) as Hle.
  rewrite H2 in Hle. simpl in Hle.
  destruct (Z_lt_le_dec 0 (_len (self st2))) as [Hpos | Hnon].
  - rewrite (Hcached Hpos). lia.
  - lia.
Qed.

Lemma len_does_not_decrease_over_close_witness :
  let N := Sample.native (inr tt) (fun _ => 3) in
  let st := fst (Col.writerecords N [Sample.record_of_type "Point"]
                   (Sample.shapefile_writer "Point")) in
  let before := Col.__len__ N st in
  let closing := Col.close N (fst before) in
  let after := Col.__len__ N (fst closing) in
  snd before = inr 3 /\ snd after = inr 3 /\ 3 <= 3.
Proof.
  intros N st before closing after.
  assert (H1 : Col.__len__ N st = (fst before, inr 3))
    by (vm_compute; reflexivity).
  assert (H2 : Col.close N (fst before) = (fst closing, inr tt))
    by (vm_compute; reflexivity).
  assert (H3 : Col.__len__ N (fst closing) = (fst after, inr 3))
    by (vm_compute; reflexivity).
  split; [vm_compute; reflexivity | split; [vm_compute; reflexivity | ]].
  exact (len_does_not_decrease_over_close N st (fst before) (fst closing)
           (fst after) 3 3 H1 H2 H3).
Defined.

Lemma flush_takes_larger_length_witness :
  let N := Sample.native (inr tt) (fun _ => 2) in
  let st := fst (Col.writerecords (Sample.native (inr tt) (fun _ => 5))
                   [Sample.record_of_type "Point"]
                   (Sample.shapefile_writer "Point")) in
  _len (self st) = 5 /\ _len (self (fst (Col.flush N st))) = 5.
Proof.
  intros N st.
  destruct (flush_takes_larger_length N st 2
              (VTuple [VInt 0; VInt 0; VInt 1; VInt 1])
              ltac:(vm_compute; reflexivity) ltac:(vm_compute; reflexivity)
              ltac:(vm_compute; reflexivity) ltac:(vm_compute; reflexivity)
              ltac:(right; discriminate)) as (Hl & _).
  split; [vm_compute; reflexivity | ].
  rewrite Hl. vm_compute. reflexivity.
Defined.

Lemma len_never_decreases_across_flush_witness :
  let N := Sample.native (inr tt) (fun _ => 2) in
  let st := fst (Col.writerecords (Sample.native (inr tt) (fun _ => 5))
                   [Sample.record_of_type "Point"]
                   (Sample.shapefile_writer "Point")) in
  let before := Col.__len__ N st in
  let flushed := Col.flush N (fst before) in
  let after := Col.__len__ N (fst flushed) in
  snd before = inr 5 /\ snd after = inr 5 /\ 5 <= 5.
Proof.
  intros N st before flushed after.
  assert (H1 : Col.__len__ N st = (fst before, inr 5))
    by (vm_compute; reflexivity).
  assert (H2 : Col.flush N (fst before) = (fst flushed, inr tt))
    by (vm_compute; reflexivity).
  assert (H3 : Col.__len__ N (fst flushed) = (fst after, inr 5))
    by (vm_compute; reflexivity).
  split; [vm_compute; reflexivity | split; [vm_compute; reflexivity | ]].
  exact (len_never_decreases_across_flush N st (fst before) (fst flushed)
           (fst after) 5 5 H1 H2 H3).
Defined.
